(** * AICTE-Setu: the application workflow routes

    A shallow embedding of the workflow routes of the Express server
    (create, submit, admin status override, evaluator assignment, evaluation
    recording), of the tracker's document progress and of the admin
    dashboard's average processing time, followed by the properties of the
    workflow engine that hold on them.

    The database is a record of tables; a table is the list of its rows,
    an insert adding a row at the end and an update keeping the place of
    the row.  A query that orders its rows is given the results its order
    admits, see [timeline_read].  A route is a function from the store to a
    response and the store after the request. *)

From Stdlib Require Import ZArith List String Bool Arith Lia.
From Stdlib Require Import QArith Qround Qabs Lqa.
From Stdlib Require Import Sorting.Permutation Sorting.Sorted.
From Stdlib Require Import Floats.PrimFloat Floats.SpecFloat Floats.FloatOps.
From Stdlib Require Import Floats.FloatAxioms.
From Stdlib Require Import Numbers.Cyclic.Int63.Uint63.
Import ListNotations.

Close Scope Q_scope.
Local Open Scope string_scope.
Local Open Scope nat_scope.

(** ** Rows of the schema

    [shared/schema] declares the tables, their constraints and the
    enumerations; it is not among the sources at hand.  The rows below carry
    the columns the routes and the seed script read and write, under the
    names they use. *)

(** Row identifiers are generated by the database and are unique; the
    store hands them out from one counter. *)
Definition Id := nat.

(** A point in time, in microseconds since the epoch; [new Date()] and the
    columns defaulting to the insertion time produce one. *)
Definition Timestamp := Z.

Module ApplicationStatus.
(** Modelled from the spec: the [application_status] enumeration of
    [shared/schema].  The routes and the seed script name six of its
    members and the specification's state list adds [scrutiny]; [other]
    stands for the remaining members, which no route names. *)
Inductive t :=
| draft | submitted | scrutiny | document_verification
| under_evaluation | approved | rejected
| other (label : string).

Definition is_approved (s : t) : bool :=
  match s with approved => true | _ => false end.

(** Terminal statuses: approved or rejected. *)
Definition terminal (s : t) : bool :=
  match s with approved | rejected => true | _ => false end.
End ApplicationStatus.

Module ApplicationType.
Inductive t :=
| new_institution | intake_increase | new_course | eoa | location_change.
End ApplicationType.

Module StageStatus.
Inductive t := pending | current | completed.

Definition is_current (s : t) : bool :=
  match s with current => true | _ => false end.
End StageStatus.

Module DocumentStatus.
(** The tracker compares a document's status with three literals; a row
    holding any other label is counted in the total only. *)
Inductive t := pending | approved | rejected | other (label : string).
End DocumentStatus.

Module Priority.
Inductive t := low | medium | high.
End Priority.

Module User.
Record t := mk {
  id : Id;
  email : string;
  name : string;
  role : string
}.
End User.

Module Institution.
Record t := mk {
  id : Id;
  userId : Id;
  name : string;
  address : string;
  state : string
}.
End Institution.

Module Application.
Record t := mk {
  id : Id;
  applicationNumber : string;
  institutionId : Id;
  applicationType : ApplicationType.t;
  status : ApplicationStatus.t;
  institutionName : string;
  address : string;
  state : string;
  courseName : option string;
  intake : option Z;
  description : option string;
  submittedAt : option Timestamp;
  createdAt : Timestamp;
  updatedAt : Timestamp
}.

(** The column assignments of [.set({...})]. *)
Definition set_status (s : ApplicationStatus.t) (a : t) : t :=
  mk (id a) (applicationNumber a) (institutionId a) (applicationType a) s
     (institutionName a) (address a) (state a) (courseName a) (intake a)
     (description a) (submittedAt a) (createdAt a) (updatedAt a).

Definition set_submittedAt (d : option Timestamp) (a : t) : t :=
  mk (id a) (applicationNumber a) (institutionId a) (applicationType a)
     (status a) (institutionName a) (address a) (state a) (courseName a)
     (intake a) (description a) d (createdAt a) (updatedAt a).

Definition set_updatedAt (d : Timestamp) (a : t) : t :=
  mk (id a) (applicationNumber a) (institutionId a) (applicationType a)
     (status a) (institutionName a) (address a) (state a) (courseName a)
     (intake a) (description a) (submittedAt a) (createdAt a) d.
End Application.

Module Document.
Record t := mk {
  id : Id;
  applicationId : Id;
  category : string;
  fileName : string;
  status : DocumentStatus.t
}.
End Document.

Module TimelineStage.
Record t := mk {
  id : Id;
  applicationId : Id;
  title : string;
  description : string;
  status : StageStatus.t;
  assignedTo : option string;
  completedAt : option Timestamp;
  createdAt : Timestamp
}.

Definition set_status (s : StageStatus.t) (x : t) : t :=
  mk (id x) (applicationId x) (title x) (description x) s (assignedTo x)
     (completedAt x) (createdAt x).

Definition set_completedAt (d : option Timestamp) (x : t) : t :=
  mk (id x) (applicationId x) (title x) (description x) (status x)
     (assignedTo x) d (createdAt x).
End TimelineStage.

Module EvaluatorAssignment.
Record t := mk {
  id : Id;
  applicationId : Id;
  evaluatorId : Id;
  priority : Priority.t;
  deadline : option Timestamp;
  completedAt : option Timestamp
}.

Definition set_completedAt (d : option Timestamp) (x : t) : t :=
  mk (id x) (applicationId x) (evaluatorId x) (priority x) (deadline x) d.
End EvaluatorAssignment.

Module Evaluation.
Record t := mk {
  id : Id;
  assignmentId : Id;
  applicationId : Id;
  evaluatorId : Id;
  score : Z;
  comments : option string;
  recommendation : string;
  siteVisitNotes : option string
}.
End Evaluation.

(** ** The store and the query primitives *)

Record Store := mkStore {
  users : list User.t;
  institutions : list Institution.t;
  applications : list Application.t;
  documents : list Document.t;
  evaluatorAssignments : list EvaluatorAssignment.t;
  evaluations : list Evaluation.t;
  timelineStages : list TimelineStage.t;
  nextId : Id
}.

Module Db.
Section Queries.
Context {Row : Type}.

(** [db.query.T.findFirst({ where })] *)
Definition findFirst (where_ : Row -> bool) (rows : list Row) : option Row :=
  find where_ rows.

(** [db.query.T.findMany({ where })] *)
Definition findMany (where_ : Row -> bool) (rows : list Row) : list Row :=
  filter where_ rows.

(** [db.update(T).set(...).where(...)]: every matching row is rewritten,
    the others are kept. *)
Definition update (set_ : Row -> Row) (where_ : Row -> bool)
           (rows : list Row) : list Row :=
  map (fun r => if where_ r then set_ r else r) rows.

(** The rows [.returning()] hands back after an update. *)
Definition returning (set_ : Row -> Row) (where_ : Row -> bool)
           (rows : list Row) : list Row :=
  map set_ (filter where_ rows).

(** [db.insert(T).values(...)] *)
Definition insert (new : list Row) (rows : list Row) : list Row :=
  rows ++ new.
End Queries.
End Db.

(** The constraints [shared/schema] puts on the tables decide which inserts
    the database refuses.  They are a parameter of the routes. *)
Record Constraints := mkConstraints {
  foreign_keys : bool;
  unique_applicationNumber : bool
}.

(** ** Responses and the middleware *)

Inductive Response (A : Type) : Type :=
| Json (body : A)
| Status (code : nat) (message : string).
Arguments Json {A} body.
Arguments Status {A} code message.

Definition is_error {A} (r : Response A) : bool :=
  match r with Json _ => false | Status _ _ => true end.

(** The typed failures of the engine, as the routes answer them. *)
Definition NotFoundError {A} (r : Response A) : Prop :=
  exists m, r = Status 404 m.

Record Session := mkSession {
  userId : option Id;
  userRole : option string
}.

Definition includes (roles : list string) (r : string) : bool :=
  existsb (String.eqb r) roles.

(** [requireAuth] followed by [requireRole(...roles)]; [roles = None] is a
    route guarded by [requireAuth] alone. *)
Definition guarded {A} (roles : option (list string)) (sess : Session)
           (handler : Id -> Store -> Response A * Store)
           (db : Store) : Response A * Store :=
  match userId sess with
  | None => (Status 401 "Unauthorized", db)
  | Some uid =>
      match roles with
      | None => handler uid db
      | Some rs =>
          let r := match userRole sess with Some r => r | None => "" end in
          if includes rs r then handler uid db
          else (Status 403 "Forbidden", db)
      end
  end.

(** JavaScript's [x || d] on an optional string: an absent or empty [x]
    gives [d]. *)
Definition or_default (x : option string) (d : string) : string :=
  match x with
  | Some s => if String.eqb s "" then d else s
  | None => d
  end.

(** ** The workflow routes *)

Record CreateApplicationBody := mkCreateApplicationBody {
  body_applicationType : ApplicationType.t;
  body_institutionName : option string;
  body_address : option string;
  body_state : option string;
  body_courseName : option string;
  body_intake : option Z;
  body_description : option string
}.

Record AssignEvaluatorBody := mkAssignEvaluatorBody {
  assign_applicationId : Id;
  assign_evaluatorId : Id;
  assign_priority : option Priority.t;
  assign_deadline : option Timestamp
}.

Record SubmitEvaluationBody := mkSubmitEvaluationBody {
  eval_assignmentId : Id;
  eval_applicationId : Id;
  eval_score : Z;
  eval_comments : option string;
  eval_recommendation : string;
  eval_siteVisitNotes : option string
}.

(** The six stages POST /api/applications inserts, in order. *)
Definition timelineStagesData : list (string * string * StageStatus.t) :=
  [ ("Application Submitted", "Application created", StageStatus.current);
    ("Initial Scrutiny", "Awaiting scrutiny", StageStatus.pending);
    ("Document Verification", "Awaiting verification", StageStatus.pending);
    ("Evaluator Assignment", "Awaiting evaluator", StageStatus.pending);
    ("Site Visit & Evaluation", "Pending site visit", StageStatus.pending);
    ("Final Approval", "Pending final review", StageStatus.pending) ].

(** The stages of an application, in the order of the table. *)
Definition timeline (db : Store) (applicationId : Id) : list TimelineStage.t :=
  Db.findMany (fun s => TimelineStage.applicationId s =? applicationId)
              (timelineStages db).

(** A result of the timeline query of GET /api/applications/:id, which
    orders the stages of the application by [createdAt].  The six stages
    an application is created with are inserted by one statement and share
    their creation time, so the query does not fix their order: every
    arrangement of the rows that is sorted by [createdAt] is a result. *)
Definition timeline_read (db : Store) (applicationId : Id)
           (stages : list TimelineStage.t) : Prop :=
  Permutation stages (timeline db applicationId)
  /\ StronglySorted
       (fun s s' => (TimelineStage.createdAt s <= TimelineStage.createdAt s')%Z)
       stages.

Definition has_application (db : Store) (i : Id) : bool :=
  existsb (fun a => Application.id a =? i) (applications db).

Definition has_user (db : Store) (i : Id) : bool :=
  existsb (fun u => User.id u =? i) (users db).

Definition has_assignment (db : Store) (i : Id) : bool :=
  existsb (fun x => EvaluatorAssignment.id x =? i) (evaluatorAssignments db).

Section Routes.
(** The table constraints of the schema. *)
Variable sc : Constraints.

(** A request body is [None] when [safeParse] rejects it (answer 400) and
    the parsed data otherwise.  [now] is the clock of the request. *)

(** POST /api/applications.  [appNumber] is the application number the
    route builds from the year and [Math.random()]. *)
Definition createApplication (sess : Session)
           (body : option CreateApplicationBody) (appNumber : string)
           (now : Timestamp) : Store -> Response Application.t * Store :=
  guarded (Some ["institution"]) sess (fun uid db =>
    match body with
    | None => (Status 400 "Validation error", db)
    | Some b =>
        match Db.findFirst (fun i => Institution.userId i =? uid)
                           (institutions db) with
        | None => (Status 404 "Institution not found", db)
        | Some institution =>
            if unique_applicationNumber sc
               && existsb (fun a => String.eqb (Application.applicationNumber a)
                                               appNumber)
                          (applications db)
            then (Status 500 "Failed to create application", db)
            else
              let application :=
                Application.mk (nextId db) appNumber
                  (Institution.id institution) (body_applicationType b)
                  ApplicationStatus.draft
                  (or_default (body_institutionName b) (Institution.name institution))
                  (or_default (body_address b) (Institution.address institution))
                  (or_default (body_state b) (Institution.state institution))
                  (body_courseName b) (body_intake b) (body_description b)
                  None now now in
              let stages :=
                map (fun '(i, (title, description, status)) =>
                       TimelineStage.mk i (Application.id application)
                         title description status None None now)
                    (combine (seq (S (nextId db)) (List.length timelineStagesData))
                             timelineStagesData) in
              (Json application,
               mkStore (users db) (institutions db)
                 (Db.insert [application] (applications db))
                 (documents db) (evaluatorAssignments db) (evaluations db)
                 (Db.insert stages (timelineStages db))
                 (S (nextId db) + List.length timelineStagesData))
        end
    end).

(** POST /api/applications/:id/submit *)
Definition submitApplication (sess : Session) (id : string)
           (now : Timestamp) : Store -> Response (option Application.t) * Store :=
  guarded (Some ["institution"]) sess (fun _ db =>
    match Db.findFirst (fun a => String.eqb (Application.applicationNumber a) id)
                       (applications db) with
    | None => (Status 404 "Application not found", db)
    | Some application =>
        let set_ a :=
          Application.set_updatedAt now
            (Application.set_submittedAt (Some now)
               (Application.set_status ApplicationStatus.submitted a)) in
        let where_ a := Application.id a =? Application.id application in
        let updated := hd_error (Db.returning set_ where_ (applications db)) in
        let stages1 :=
          Db.update
            (fun s => TimelineStage.set_completedAt (Some now)
                        (TimelineStage.set_status StageStatus.completed s))
            (fun s => (TimelineStage.applicationId s =? Application.id application)
                      && String.eqb (TimelineStage.title s) "Application Submitted")
            (timelineStages db) in
        let stages2 :=
          Db.update
            (TimelineStage.set_status StageStatus.current)
            (fun s => (TimelineStage.applicationId s =? Application.id application)
                      && String.eqb (TimelineStage.title s) "Initial Scrutiny")
            stages1 in
        (Json updated,
         mkStore (users db) (institutions db)
           (Db.update set_ where_ (applications db))
           (documents db) (evaluatorAssignments db) (evaluations db)
           stages2 (nextId db))
    end).

(** PUT /api/admin/applications/:id/status *)
Definition setStatus (sess : Session) (id : string)
           (body : option ApplicationStatus.t)
           (now : Timestamp) : Store -> Response (option Application.t) * Store :=
  guarded (Some ["admin"]) sess (fun _ db =>
    match body with
    | None => (Status 400 "Validation error", db)
    | Some newStatus =>
        match Db.findFirst (fun a => String.eqb (Application.applicationNumber a) id)
                           (applications db) with
        | None => (Status 404 "Application not found", db)
        | Some application =>
            let set_ a :=
              Application.set_updatedAt now (Application.set_status newStatus a) in
            let where_ a := Application.id a =? Application.id application in
            (Json (hd_error (Db.returning set_ where_ (applications db))),
             mkStore (users db) (institutions db)
               (Db.update set_ where_ (applications db))
               (documents db) (evaluatorAssignments db) (evaluations db)
               (timelineStages db) (nextId db))
        end
    end).

(** POST /api/admin/assign-evaluator.  The insert is the first statement;
    when the schema's references are enforced and the application or the
    evaluator is missing it throws, and the route answers 500. *)
Definition assignEvaluator (sess : Session) (body : option AssignEvaluatorBody)
           (now : Timestamp) : Store -> Response EvaluatorAssignment.t * Store :=
  guarded (Some ["admin"]) sess (fun _ db =>
    match body with
    | None => (Status 400 "Validation error", db)
    | Some b =>
        if foreign_keys sc
           && negb (has_application db (assign_applicationId b)
                    && has_user db (assign_evaluatorId b))
        then (Status 500 "Failed to assign evaluator", db)
        else
          let assignment :=
            EvaluatorAssignment.mk (nextId db) (assign_applicationId b)
              (assign_evaluatorId b)
              (match assign_priority b with
               | Some p => p
               | None => Priority.medium
               end)
              (assign_deadline b) None in
          (Json assignment,
           mkStore (users db) (institutions db)
             (Db.update
                (fun a => Application.set_updatedAt now
                            (Application.set_status
                               ApplicationStatus.under_evaluation a))
                (fun a => Application.id a =? assign_applicationId b)
                (applications db))
             (documents db)
             (Db.insert [assignment] (evaluatorAssignments db))
             (evaluations db) (timelineStages db) (S (nextId db)))
    end).

(** The second statement of POST /api/evaluations: the completion of an
    assignment. *)
Definition completeAssignment (assignmentId : Id) (now : Timestamp)
           (rows : list EvaluatorAssignment.t) : list EvaluatorAssignment.t :=
  Db.update (EvaluatorAssignment.set_completedAt (Some now))
            (fun x => EvaluatorAssignment.id x =? assignmentId) rows.

(** POST /api/evaluations *)
Definition recordEvaluation (sess : Session) (body : option SubmitEvaluationBody)
           (now : Timestamp) : Store -> Response Evaluation.t * Store :=
  guarded (Some ["evaluator"]) sess (fun uid db =>
    match body with
    | None => (Status 400 "Validation error", db)
    | Some b =>
        if foreign_keys sc
           && negb (has_assignment db (eval_assignmentId b)
                    && has_application db (eval_applicationId b)
                    && has_user db uid)
        then (Status 500 "Failed to submit evaluation", db)
        else
          let evaluation :=
            Evaluation.mk (nextId db) (eval_assignmentId b)
              (eval_applicationId b) uid (eval_score b) (eval_comments b)
              (eval_recommendation b) (eval_siteVisitNotes b) in
          (Json evaluation,
           mkStore (users db) (institutions db) (applications db)
             (documents db)
             (completeAssignment (eval_assignmentId b) now
                (evaluatorAssignments db))
             (Db.insert [evaluation] (evaluations db))
             (timelineStages db) (S (nextId db)))
    end).

(** *** Sequences of engine operations *)

Inductive Operation :=
| Create (sess : Session) (body : option CreateApplicationBody)
         (appNumber : string) (now : Timestamp)
| Submit (sess : Session) (id : string) (now : Timestamp)
| AssignEvaluator (sess : Session) (body : option AssignEvaluatorBody)
                  (now : Timestamp)
| RecordEvaluation (sess : Session) (body : option SubmitEvaluationBody)
                   (now : Timestamp)
| SetStatus (sess : Session) (id : string) (body : option ApplicationStatus.t)
            (now : Timestamp).

(** The store after one request. *)
Definition step (db : Store) (op : Operation) : Store :=
  match op with
  | Create sess body n now => snd (createApplication sess body n now db)
  | Submit sess id now => snd (submitApplication sess id now db)
  | AssignEvaluator sess body now => snd (assignEvaluator sess body now db)
  | RecordEvaluation sess body now => snd (recordEvaluation sess body now db)
  | SetStatus sess id body now => snd (setStatus sess id body now db)
  end.

Definition run (ops : list Operation) (db : Store) : Store :=
  fold_left step ops db.
End Routes.

(** The number of stages of a timeline whose status is [current]. *)
Definition count_current (stages : list TimelineStage.t) : nat :=
  List.length (filter (fun s => StageStatus.is_current (TimelineStage.status s)) stages).

Definition lookup_application (db : Store) (i : Id) : option Application.t :=
  Db.findFirst (fun a => Application.id a =? i) (applications db).

Definition lookup_assignment (db : Store) (i : Id) : option EvaluatorAssignment.t :=
  Db.findFirst (fun x => EvaluatorAssignment.id x =? i) (evaluatorAssignments db).

(** ** The tracker: document progress

    GET /api/applications/tracker computes the progress with JavaScript
    numbers, which are IEEE 754 binary64 values; the kernel's primitive
    floats are the same format with the same rounding. *)

Module JS.
(** An integer as a JavaScript number (exact below 2^53). *)
Definition Number_of_Z (z : Z) : float :=
  if (z <? 0)%Z then (- of_uint63 (Uint63.of_Z (- z)))%float
  else of_uint63 (Uint63.of_Z z).

Definition Number (n : nat) : float := Number_of_Z (Z.of_nat n).

(** [Math.round]: the nearest integer, a tie going towards +infinity;
    NaN, the infinities, the zeros and the integers are returned as they
    are, and a negative argument that rounds to zero gives -0. *)
Definition Math_round (x : float) : float :=
  match Prim2SF x with
  | S754_finite s m e =>
      if (0 <=? e)%Z then x
      else
        let v := if s then Z.neg m else Z.pos m in
        let n := ((2 * v + 2 ^ (- e)) / 2 ^ (1 - e))%Z in
        if (n =? 0)%Z then (if s then neg_zero else zero)
        else Number_of_Z n
  | _ => x
  end.
End JS.

Record TrackerDetails := mkTrackerDetails {
  approvedDocs : nat;
  rejectedDocs : nat;
  pendingDocs : nat;
  evaluationProgress : float
}.

Definition is_doc_approved (doc : Document.t) : bool :=
  match Document.status doc with DocumentStatus.approved => true | _ => false end.

Definition is_doc_rejected (doc : Document.t) : bool :=
  match Document.status doc with DocumentStatus.rejected => true | _ => false end.

Definition is_doc_pending (doc : Document.t) : bool :=
  match Document.status doc with DocumentStatus.pending => true | _ => false end.

(** The percentage of the tracker, from the number of reviewed documents
    and the total. *)
Definition progress (reviewed totalDocs : nat) : float :=
  if 0 <? totalDocs
  then JS.Math_round ((JS.Number reviewed / JS.Number totalDocs) * 100)%float
  else 0%float.

(** The per-application body of the tracker's [map]. *)
Definition trackerDetails (appDocuments : list Document.t) : TrackerDetails :=
  let approvedDocs := List.length (filter is_doc_approved appDocuments) in
  let rejectedDocs := List.length (filter is_doc_rejected appDocuments) in
  let pendingDocs := List.length (filter is_doc_pending appDocuments) in
  let totalDocs := List.length appDocuments in
  let evaluationProgress := progress (approvedDocs + rejectedDocs) totalDocs in
  mkTrackerDetails approvedDocs rejectedDocs pendingDocs evaluationProgress.

Definition tracker (db : Store) (app : Application.t) : TrackerDetails :=
  trackerDetails
    (Db.findMany (fun d => Document.applicationId d =? Application.id app)
                 (documents db)).

(** The specification's formula, in exact arithmetic:
    round(100 * (approved + rejected) / total), a half rounding up, and 0
    when total = 0. *)
Definition spec_verificationProgress (approved rejected total : nat) : Z :=
  if total =? 0 then 0%Z
  else Qfloor (inject_Z (100 * Z.of_nat (approved + rejected))
               / inject_Z (Z.of_nat total) + (1 # 2))%Q.

(** The same formula evaluated with JavaScript numbers in the order the
    specification writes it. *)
Definition spec_verificationProgress_js (approved rejected total : nat) : float :=
  if total =? 0 then 0%float
  else JS.Math_round (100 * JS.Number (approved + rejected) / JS.Number total)%float.

(** The exact percentage [100 * reviewed / total] is a tie between two
    integers: twice it is an odd integer. *)
Definition is_tie (reviewed total : nat) : bool :=
  ((200 * Z.of_nat reviewed) mod Z.of_nat total =? 0)%Z
  && Z.odd (200 * Z.of_nat reviewed / Z.of_nat total).

(** The tracker's percentage is the specification's, or one less at a
    tie. *)
Definition progress_agrees (reviewed total : nat) : bool :=
  let s := spec_verificationProgress reviewed 0 total in
  Leibniz.eqb (progress reviewed total) (JS.Number_of_Z s)
  || (Leibniz.eqb (progress reviewed total) (JS.Number_of_Z (s - 1))
      && is_tie reviewed total).

(** [f reviewed total] for every [reviewed <= total < n]. *)
Definition for_all_counts (f : nat -> nat -> bool) (n : nat) : bool :=
  forallb (fun total => forallb (fun reviewed => f reviewed total)
                                (seq 0 (S total)))
          (seq 0 n).

(** ** The admin dashboard: average processing time

    The statistic is a SQL aggregate evaluated by PostgreSQL, where
    [EXTRACT] gives a [numeric] (from version 14 on) and the arithmetic of
    the query is the arithmetic of [numeric]: a decimal with a scale, a
    quotient being rounded at the scale [select_div_scale] selects. *)

Module Postgres.
(** A [numeric] value: the decimal [unscaled / 10 ^ dscale], carried with
    [dscale] digits after the point. *)
Record numeric := mkNumeric {
  unscaled : Z;
  dscale : nat
}.

Definition pow10 (n : nat) : Z := (10 ^ Z.of_nat n)%Z.

(** The number a [numeric] stands for. *)
Definition value (x : numeric) : Q :=
  (inject_Z (unscaled x) / inject_Z (pow10 (dscale x)))%Q.

(** An integer as a [numeric]. *)
Definition of_int (z : Z) : numeric := mkNumeric z 0.

(** The quotient [n / d] rounded to the nearest integer, a tie going away
    from zero, as [round_var] does. *)
Definition round_quot (n d : Z) : Z :=
  (Z.sgn n * Z.sgn d * ((2 * Z.abs n + Z.abs d) / (2 * Z.abs d)))%Z.

(** The weight and the value of the first base-10000 digit of an integer
    [ip >= 1]. *)
Fixpoint leading_digit (fuel : nat) (ip : Z) : Z * Z :=
  match fuel with
  | O => (0, ip)%Z
  | S fuel' =>
      if (ip <? 10000)%Z then (0, ip)%Z
      else let '(w, d) := leading_digit fuel' (ip / 10000) in ((w + 1)%Z, d)
  end.

(** The same for a fraction [n / den] below 1, [n >= 1]: the first
    base-10000 digit after the point that is not zero is the [k]-th. *)
Fixpoint leading_fraction (fuel : nat) (k : Z) (n den : Z) : Z * Z :=
  match fuel with
  | O => ((- k)%Z, (n * 10000 ^ k / den)%Z)
  | S fuel' =>
      if (den <=? n * 10000 ^ k)%Z then ((- k)%Z, (n * 10000 ^ k / den)%Z)
      else leading_fraction fuel' (k + 1) n den
  end.

(** The weight and the first digit of a value in base 10000, as
    [select_div_scale] reads them off a normalized variable; both are 0 for
    zero. *)
Definition weight_and_first_digit (x : numeric) : Z * Z :=
  let n := Z.abs (unscaled x) in
  let den := pow10 (dscale x) in
  if (n =? 0)%Z then (0, 0)%Z
  else if (den <=? n)%Z
       then leading_digit (Z.to_nat (Z.log2 (n / den))) (n / den)
       else leading_fraction (dscale x) 1 n den.

(** [select_div_scale]: the scale of a quotient, chosen to give at least
    16 significant digits and no less than the scale of either operand. *)
Definition select_div_scale (a b : numeric) : nat :=
  let '(weight1, firstdigit1) := weight_and_first_digit a in
  let '(weight2, firstdigit2) := weight_and_first_digit b in
  let qweight :=
    (weight1 - weight2 - (if firstdigit1 <=? firstdigit2 then 1 else 0))%Z in
  let rscale := Z.to_nat (16 - qweight * 4) in
  Nat.min (Nat.max (Nat.max rscale (dscale a)) (dscale b)) 1000.

(** [numeric / numeric] for a divisor other than zero: the quotient rounded
    to the selected scale. *)
Definition div (a b : numeric) : numeric :=
  let rscale := select_div_scale a b in
  mkNumeric (round_quot (unscaled a * pow10 (dscale b) * pow10 rscale)
                        (unscaled b * pow10 (dscale a)))
            rscale.

(** [numeric + numeric]: exact, at the larger scale. *)
Definition add (a b : numeric) : numeric :=
  let s := Nat.max (dscale a) (dscale b) in
  mkNumeric (unscaled a * pow10 (s - dscale a)
             + unscaled b * pow10 (s - dscale b))%Z s.

(** [EXTRACT(EPOCH FROM interval)]: the interval, given in microseconds, as
    seconds with six digits after the point. *)
Definition EXTRACT_EPOCH (interval : Z) : numeric := mkNumeric interval 6.

Definition SUM (xs : list numeric) : numeric := fold_right add (of_int 0) xs.

(** [AVG] over no row is NULL; otherwise the sum divided by the count. *)
Definition AVG (xs : list numeric) : option numeric :=
  match xs with
  | [] => None
  | _ => Some (div (SUM xs) (of_int (Z.of_nat (List.length xs))))
  end.

Definition COALESCE {A} (x : option A) (d : A) : A :=
  match x with Some v => v | None => d end.

(** The cast [::int] rounds to the nearest integer, a tie going away from
    zero. *)
Definition cast_int (x : numeric) : Z :=
  round_quot (unscaled x) (pow10 (dscale x)).
End Postgres.

(** The rows of the [avgProcessing] query: approved applications with a
    submission timestamp ([updatedAt] is never NULL in a row), each as the
    interval [updatedAt - submittedAt], in microseconds. *)
Definition processing_intervals (apps : list Application.t) : list Z :=
  flat_map (fun a =>
              match Application.submittedAt a with
              | Some s =>
                  if ApplicationStatus.is_approved (Application.status a)
                  then [(Application.updatedAt a - s)%Z]
                  else []
              | None => []
              end) apps.

(** [EXTRACT(EPOCH FROM (updatedAt - submittedAt)) / 86400] of every row. *)
Definition day_rows (intervals : list Z) : list Postgres.numeric :=
  map (fun i => Postgres.div (Postgres.EXTRACT_EPOCH i) (Postgres.of_int 86400))
      intervals.

(** The [avgProcessing] query of GET /api/admin/dashboard,
    [COALESCE(AVG(EXTRACT(EPOCH FROM (updatedAt - submittedAt)) / 86400), 0)::int];
    the route shows the number followed by the word days.  No two
    timestamps of PostgreSQL are far enough apart for the cast to leave the
    range of [int]. *)
Definition avgDays (db : Store) : Z :=
  Postgres.cast_int
    (Postgres.COALESCE
       (Postgres.AVG (day_rows (processing_intervals (applications db))))
       (Postgres.of_int 0)).

(** One day, in microseconds. *)
Definition day : Z := 86400 * 1000000.

(** The mean of the intervals, in days. *)
Definition mean_days (intervals : list Z) : Q :=
  (inject_Z (fold_right Z.add 0%Z intervals)
   / inject_Z (day * Z.of_nat (List.length intervals)))%Q.

(** The specification's statistic: the mean of [updatedAt - submittedAt]
    over the approved applications, in days, floored; 0 without an approved
    application. *)
Definition spec_avgProcessingDays (db : Store) : Z :=
  match processing_intervals (applications db) with
  | [] => 0%Z
  | intervals => Qfloor (mean_days intervals)
  end.

(** ** A concrete run of the engine

    One institution creates an application, submits it, the admin assigns
    an evaluator, and the evaluator records an evaluation recommending
    approval. *)

Module Scenario.
Definition sc : Constraints := mkConstraints true true.

Definition institution : Session := mkSession (Some 1) (Some "institution").
Definition admin : Session := mkSession (Some 2) (Some "admin").
Definition evaluator : Session := mkSession (Some 3) (Some "evaluator").

Definition registered : Store :=
  mkStore
    [ User.mk 1 "institution@example.com" "Institution" "institution";
      User.mk 2 "admin@example.com" "Admin" "admin";
      User.mk 3 "evaluator@example.com" "Evaluator" "evaluator" ]
    [ Institution.mk 10 1 "Delhi Institute of Technology"
        "123 Tech Street, New Delhi" "Delhi" ]
    [] [] [] [] [] 100.

Definition body : CreateApplicationBody :=
  mkCreateApplicationBody ApplicationType.new_course None None None
    (Some "B.Tech in Artificial Intelligence") (Some 60%Z) None.

Definition number : string := "APP-2025-000042".

Definition created : Store :=
  snd (createApplication sc institution (Some body) number 1000%Z registered).

Definition submitted : Store :=
  snd (submitApplication institution number 2000%Z created).

Definition assignment : AssignEvaluatorBody :=
  mkAssignEvaluatorBody 100 3 (Some Priority.high) None.

Definition assigned : Store :=
  snd (assignEvaluator sc admin (Some assignment) 3000%Z submitted).

Definition approve : SubmitEvaluationBody :=
  mkSubmitEvaluationBody 107 100 85%Z (Some "All requirements met.") "Approve" None.

Definition evaluated : Store :=
  snd (recordEvaluation sc evaluator (Some approve) 4000%Z assigned).

(** The application of the run once the admin has approved it. *)
Definition decided : Store :=
  snd (setStatus admin number (Some ApplicationStatus.approved) 5000%Z evaluated).

(** The requests of the run, as engine operations. *)
Definition operations : list Operation :=
[ Create institution (Some body) number 1000%Z;
  Submit institution number 2000%Z;
  AssignEvaluator admin (Some assignment) 3000%Z;
  RecordEvaluation evaluator (Some approve) 4000%Z;
  SetStatus admin number (Some ApplicationStatus.approved) 5000%Z ].

(** Forty documents of one application, 23 approved and 17 pending. *)
Definition forty_documents : list Document.t :=
  map (fun i => Document.mk i 100 "Building Plan" "building-plan.pdf"
                  (if i <? 23 then DocumentStatus.approved
                   else DocumentStatus.pending))
      (seq 0 40).

(** The five documents of the specification's scenario. *)
Definition five_documents : list Document.t :=
  [ Document.mk 0 100 "Institution Registration" "r.pdf" DocumentStatus.approved;
    Document.mk 1 100 "Building Plan" "b.pdf" DocumentStatus.approved;
    Document.mk 2 100 "Faculty Details" "f.pdf" DocumentStatus.pending;
    Document.mk 3 100 "Infrastructure Report" "i.pdf" DocumentStatus.approved;
    Document.mk 4 100 "Financial Statements" "s.pdf" DocumentStatus.rejected ].

(** A store whose only application was approved a day and three quarters
    after its submission. *)
Definition one_approved : Store :=
  mkStore [] []
    [ Application.mk 100 number 10 ApplicationType.eoa
        ApplicationStatus.approved "Delhi Institute of Technology"
        "123 Tech Street, New Delhi" "Delhi" None None None
        (Some 0%Z) 0%Z (151200 * 1000000)%Z ]
    [] [] [] [] 101.

(** A store with three applications, approved 4, 36 and 68 hours after
    their submission: a day and a half in the mean. *)
Definition three_approved : Store :=
  mkStore [] []
    (map (fun '(i, applicationNumber, hours) =>
            Application.mk i applicationNumber 10 ApplicationType.eoa
              ApplicationStatus.approved "Delhi Institute of Technology"
              "123 Tech Street, New Delhi" "Delhi" None None None
              (Some 0%Z) 0%Z (hours * 3600 * 1000000)%Z)
         [ (100, "APP-2025-000001", 4%Z);
           (101, "APP-2025-000002", 36%Z);
           (102, "APP-2025-000003", 68%Z) ])
    [] [] [] [] 103.

(** A result of the timeline query on the submitted application of the
    run: the two stages the submission rewrote come last. *)
Definition submitted_read : list TimelineStage.t :=
  (skipn 2 (timeline submitted 100) ++ firstn 2 (timeline submitted 100))%list.
End Scenario.

(** ** The shape of engine-created timelines *)

(** The title and the status of each stage of an application, in the order
    of the table. *)
Definition stage_view (s : TimelineStage.t) : string * StageStatus.t :=
  (TimelineStage.title s, TimelineStage.status s).

Definition timeline_view (db : Store) (i : Id) : list (string * StageStatus.t) :=
  map stage_view (timeline db i).

(** The timeline of an application as POST /api/applications leaves it. *)
Definition created_view : list (string * StageStatus.t) :=
  map (fun x => (fst (fst x), snd x)) timelineStagesData.

(** The timeline of an application once submitted. *)
Definition submitted_view : list (string * StageStatus.t) :=
  [ ("Application Submitted", StageStatus.completed);
    ("Initial Scrutiny", StageStatus.current);
    ("Document Verification", StageStatus.pending);
    ("Evaluator Assignment", StageStatus.pending);
    ("Site Visit & Evaluation", StageStatus.pending);
    ("Final Approval", StageStatus.pending) ].

(** Every stage belongs to an application whose identifier has already
    been generated. *)
Definition stages_reference_known_ids (db : Store) : Prop :=
  forall s, In s (timelineStages db) ->
            TimelineStage.applicationId s < nextId db.

(** The invariant of the engine: the timeline of every application with
    an identifier from [base] on, that is of every application the engine
    creates once [base] is the next identifier, is empty, as created or as
    submitted. *)
Definition engine_timelines (base : Id) (db : Store) : Prop :=
  stages_reference_known_ids db
  /\ forall i, base <= i ->
               timeline_view db i = []
               \/ timeline_view db i = created_view
               \/ timeline_view db i = submitted_view.

(** ** Answers of the workflow routes *)

(** The HTTP status of a response; [res.json] answers 200. *)
Definition status_code {A} (r : Response A) : nat :=
  match r with Json _ => 200 | Status code _ => code end.

Definition operation_session (op : Operation) : Session :=
  match op with
  | Create sess _ _ _ => sess
  | Submit sess _ _ => sess
  | AssignEvaluator sess _ _ => sess
  | RecordEvaluation sess _ _ => sess
  | SetStatus sess _ _ _ => sess
  end.

(** The role [requireRole] is given on the route of an operation. *)
Definition operation_role (op : Operation) : string :=
  match op with
  | Create _ _ _ _ | Submit _ _ _ => "institution"
  | AssignEvaluator _ _ _ | SetStatus _ _ _ _ => "admin"
  | RecordEvaluation _ _ _ => "evaluator"
  end.

(** The status a request is answered with. *)
Definition answer (sc : Constraints) (db : Store) (op : Operation) : nat :=
  match op with
  | Create sess body n now =>
      status_code (fst (createApplication sc sess body n now db))
  | Submit sess id now => status_code (fst (submitApplication sess id now db))
  | AssignEvaluator sess body now =>
      status_code (fst (assignEvaluator sc sess body now db))
  | RecordEvaluation sess body now =>
      status_code (fst (recordEvaluation sc sess body now db))
  | SetStatus sess id body now =>
      status_code (fst (setStatus sess id body now db))
  end.

(** Every application carries an identifier the store has already handed
    out. *)
Definition applications_have_known_ids (db : Store) : Prop :=
  forall a, In a (applications db) -> Application.id a < nextId db.

(** The application POST /api/applications inserts. *)
Definition created_application (db : Store) (institution : Institution.t)
           (b : CreateApplicationBody) (appNumber : string) (now : Timestamp)
  : Application.t :=
  Application.mk (nextId db) appNumber (Institution.id institution)
    (body_applicationType b) ApplicationStatus.draft
    (or_default (body_institutionName b) (Institution.name institution))
    (or_default (body_address b) (Institution.address institution))
    (or_default (body_state b) (Institution.state institution))
    (body_courseName b) (body_intake b) (body_description b) None now now.

(** ** Further runs *)

Module Scenario2.
(** A second evaluator, and the application of the concrete run assigned
    twice to the first one. *)
Definition other_evaluator : Session := mkSession (Some 4) (Some "evaluator").

Definition registered : Store :=
  mkStore
    (users Scenario.registered
     ++ [User.mk 4 "second@example.com" "Second Evaluator" "evaluator"])%list
    (institutions Scenario.registered) [] [] [] [] [] 100.

Definition submitted : Store :=
  run Scenario.sc
      [ Create Scenario.institution (Some Scenario.body) Scenario.number 1000%Z;
        Submit Scenario.institution Scenario.number 2000%Z ]
      registered.

Definition assigned_twice : Store :=
  run Scenario.sc
      [ AssignEvaluator Scenario.admin (Some Scenario.assignment) 3000%Z;
        AssignEvaluator Scenario.admin (Some Scenario.assignment) 3500%Z ]
      submitted.

(** The second evaluator records an evaluation on the assignment 107 of
    the first one. *)
Definition intrusion : SubmitEvaluationBody :=
  mkSubmitEvaluationBody 107 100 40%Z None "Reject" None.

(** The first sample application of the seed script, under evaluation,
    with the five stages the script gives it. *)
Definition seeded : Store :=
  mkStore (users Scenario.registered) (institutions Scenario.registered)
    [ Application.mk 200 "AICTE/2025/001" 10 ApplicationType.new_course
        ApplicationStatus.under_evaluation "Delhi Institute of Technology"
        "123 Tech Street, New Delhi" "Delhi"
        (Some "B.Tech in Artificial Intelligence") (Some 60%Z)
        (Some "New undergraduate program in AI and Machine Learning")
        (Some 500%Z) 900%Z 900%Z ]
    [] [] []
    [ TimelineStage.mk 201 200 "Application Submitted"
        "Application Submitted stage" StageStatus.completed None
        (Some 901%Z) 901%Z;
      TimelineStage.mk 202 200 "Initial Scrutiny"
        "Initial Scrutiny stage" StageStatus.completed None
        (Some 902%Z) 902%Z;
      TimelineStage.mk 203 200 "Document Verification"
        "Document Verification stage" StageStatus.completed None
        (Some 903%Z) 903%Z;
      TimelineStage.mk 204 200 "Evaluation"
        "Evaluation stage" StageStatus.current (Some "Evaluator Team")
        None 904%Z;
      TimelineStage.mk 205 200 "Final Decision"
        "Final Decision stage" StageStatus.pending None None 905%Z ]
    206.
End Scenario2.

(** The number of stages carrying a title. *)
Definition stages_titled (title : string) (stages : list TimelineStage.t) : nat :=
  List.length (filter (fun s => String.eqb (TimelineStage.title s) title) stages).

(** The number of stages that are current under a title other than the
    two a submission rewrites. *)
Definition stages_current_elsewhere (stages : list TimelineStage.t) : nat :=
  List.length
    (filter (fun s => StageStatus.is_current (TimelineStage.status s)
                      && negb (String.eqb (TimelineStage.title s)
                                          "Application Submitted")
                      && negb (String.eqb (TimelineStage.title s)
                                          "Initial Scrutiny"))
            stages).

(** ** Messages and the application page

    The [messages] table is kept beside the workflow store, which hands out
    its identifiers too.  The lists of the page hold the rows its queries
    select, in the order of the tables; the route orders the messages and
    the stages by [createdAt], so that the order of the rows of a list is
    not part of what the page says. *)

Module Message.
Record t := mk {
  id : Id;
  applicationId : Id;
  senderId : Id;
  content : string;
  createdAt : Timestamp
}.
End Message.

Record World := mkWorld {
  store : Store;
  messages : list Message.t
}.

(** [requireAuth] alone, over any state. *)
Definition authenticated {S A} (sess : Session)
           (handler : Id -> S -> Response A * S) (s : S) : Response A * S :=
  match userId sess with
  | None => (Status 401 "Unauthorized", s)
  | Some uid => handler uid s
  end.

(** [from(messages).innerJoin(users, eq(messages.senderId, users.id))
    .where(eq(messages.applicationId, applicationId))]: every message of the
    application with every user row carrying its sender's identifier. *)
Definition messages_with_sender (w : World) (applicationId : Id)
  : list (Message.t * User.t) :=
  flat_map (fun m =>
              map (fun u => (m, u))
                  (filter (fun u => User.id u =? Message.senderId m)
                          (users (store w))))
           (filter (fun m => Message.applicationId m =? applicationId)
                   (messages w)).

(** A message as GET /api/applications/:id selects it. *)
Record PageMessage := mkPageMessage {
  page_id : Id;
  page_content : string;
  page_createdAt : Timestamp;
  page_senderName : string;
  page_senderRole : string
}.

Record ApplicationPage := mkApplicationPage {
  page_application : Application.t;
  page_documents : list Document.t;
  page_messages : list PageMessage;
  page_timeline : list TimelineStage.t
}.

(** GET /api/applications/:id *)
Definition getApplication (sess : Session) (id : string)
  : World -> Response ApplicationPage * World :=
  authenticated sess (fun _ w =>
    match Db.findFirst (fun a => String.eqb (Application.applicationNumber a) id)
                       (applications (store w)) with
    | None => (Status 404 "Application not found", w)
    | Some application =>
        (Json (mkApplicationPage application
                 (Db.findMany
                    (fun d => Document.applicationId d =? Application.id application)
                    (documents (store w)))
                 (map (fun '(m, u) =>
                         mkPageMessage (Message.id m) (Message.content m)
                           (Message.createdAt m) (User.name u) (User.role u))
                      (messages_with_sender w (Application.id application)))
                 (timeline (store w) (Application.id application))),
         w)
    end).

(** * Properties *)

(** ** The concrete run *)

(** The created application and its stages, in the order of the table. *)
Example created_application_is_a_draft :
  option_map Application.status (lookup_application Scenario.created 100)
  = Some ApplicationStatus.draft
  /\ timeline_view Scenario.created 100 = created_view.
Proof. split; vm_compute; reflexivity. Qed.

(** The stages of the submitted application, in the order of the table. *)
Example submitted_application_timeline :
  timeline_view Scenario.submitted 100 = submitted_view
  /\ count_current (timeline Scenario.submitted 100) = 1.
Proof. split; vm_compute; reflexivity. Qed.

Example round_half_up :
  JS.Math_round 2.5%float = 3%float
  /\ JS.Math_round (-2.5)%float = (-2)%float
  /\ Postgres.cast_int (Postgres.mkNumeric 25 1) = 3%Z
  /\ Postgres.cast_int (Postgres.mkNumeric (-25) 1) = (-3)%Z.
Proof. repeat split; vm_compute; reflexivity. Qed.

(** The scale of a quotient: 14400 / 86400 is carried with 20 digits after
    the point, 129600 / 86400 with 16. *)
Example division_scale :
  day_rows [ (4 * 3600 * 1000000)%Z; (36 * 3600 * 1000000)%Z ]
  = [ Postgres.mkNumeric 16666666666666666667 20;
      Postgres.mkNumeric 15000000000000000 16 ].
Proof. vm_compute. reflexivity. Qed.

(** Rounded at those scales, three intervals of a day and a half in the
    mean average to 1.49999999999999998889, and the statistic is 1. *)
Example average_below_the_mean :
  (mean_days (processing_intervals (applications Scenario.three_approved))
   == 3 # 2)%Q
  /\ Postgres.AVG (day_rows (processing_intervals
                               (applications Scenario.three_approved)))
     = Some (Postgres.mkNumeric 149999999999999998889 20)
  /\ avgDays Scenario.three_approved = 1%Z.
Proof. repeat split; vm_compute; reflexivity. Qed.

(** ** Facts on the query primitives *)

Section DbFacts.
Context {Row : Type}.
Variables (set_ : Row -> Row) (where_ : Row -> bool).

Lemma filter_update (p : Row -> bool) (rows : list Row) :
  (forall r, p (set_ r) = p r) ->
  filter p (Db.update set_ where_ rows) = Db.update set_ where_ (filter p rows).
Proof.
  intros Hp. unfold Db.update.
  induction rows as [|r rows IH]; simpl; [reflexivity|].
  destruct (where_ r) eqn:Hw.
  - rewrite Hp. destruct (p r); simpl; rewrite ?Hw, IH; reflexivity.
  - destruct (p r); simpl; rewrite ?Hw, IH; reflexivity.
Qed.

Lemma find_update (p : Row -> bool) (rows : list Row) :
  (forall r, p (set_ r) = p r) ->
  find p (Db.update set_ where_ rows)
  = option_map (fun r => if where_ r then set_ r else r) (find p rows).
Proof.
  intros Hp. unfold Db.update.
  induction rows as [|r rows IH]; simpl; [reflexivity|].
  assert (Hr : p (if where_ r then set_ r else r) = p r)
    by (destruct (where_ r); [apply Hp | reflexivity]).
  rewrite Hr. destruct (p r); [reflexivity | exact IH].
Qed.

Lemma hd_returning (rows : list Row) :
  hd_error (Db.returning set_ where_ rows) = option_map set_ (find where_ rows).
Proof.
  unfold Db.returning.
  induction rows as [|r rows IH]; simpl; [reflexivity|].
  destruct (where_ r); [reflexivity | exact IH].
Qed.

Lemma update_none (rows : list Row) :
  (forall r, In r rows -> where_ r = false) ->
  Db.update set_ where_ rows = rows.
Proof.
  intros H. unfold Db.update.
  induction rows as [|r rows IH]; simpl; [reflexivity|].
  rewrite (H r) by (left; reflexivity).
  rewrite IH; [reflexivity|]. intros r' Hr'. apply H. right. exact Hr'.
Qed.
End DbFacts.

Lemma existsb_false_find {A} (p : A -> bool) (l : list A) :
  existsb p l = false -> forall x, In x l -> p x = false.
Proof.
  intros H x Hx. destruct (p x) eqn:Hp; [|reflexivity].
  assert (existsb p l = true) by (apply existsb_exists; eauto). congruence.
Qed.

(** A row found by its primary key is the row itself. *)
Lemma find_primary_key (rows : list Application.t) (a : Application.t) :
  NoDup (map Application.id rows) -> In a rows ->
  find (fun x => Application.id x =? Application.id a) rows = Some a.
Proof.
  induction rows as [|r rows IH]; simpl; intros Hnd Hin; [contradiction|].
  inversion Hnd as [|? ? Hnotin Hnd']; subst.
  destruct Hin as [->|Hin].
  - rewrite Nat.eqb_refl. reflexivity.
  - destruct (Application.id r =? Application.id a) eqn:E.
    + apply Nat.eqb_eq in E. exfalso. apply Hnotin. rewrite E.
      apply in_map. exact Hin.
    + apply IH; assumption.
Qed.

(** ** The middleware *)

Lemma guarded_authorised {A} (rs : list string) (sess : Session) (uid : Id)
      (r : string) (handler : Id -> Store -> Response A * Store) (db : Store) :
  userId sess = Some uid -> userRole sess = Some r -> includes rs r = true ->
  guarded (Some rs) sess handler db = handler uid db.
Proof.
  intros Hu Hr Hi. unfold guarded. rewrite Hu, Hr, Hi. reflexivity.
Qed.

(** A refused request leaves the store as it was. *)
Lemma guarded_store {A} (roles : option (list string)) (sess : Session)
      (handler : Id -> Store -> Response A * Store) (db : Store)
      (P : Store -> Prop) :
  P db -> (forall uid, P (snd (handler uid db))) ->
  P (snd (guarded roles sess handler db)).
Proof.
  intros Hdb Hh. unfold guarded.
  destruct (userId sess); [|exact Hdb].
  destruct roles as [rs|]; [|apply Hh].
  destruct (includes rs _); [apply Hh | exact Hdb].
Qed.

(** ** The admin override *)

(** C6: for every existing application and every target status the admin
    [setStatus] succeeds whatever the current status is; it sets the
    requested status and [updatedAt] of that application and nothing else:
    its other columns, the other applications, its timeline stages and the
    other tables are unchanged. *)
Theorem setStatus_sets_status_only
        (sess : Session) (uid : Id) (id : string)
        (newStatus : ApplicationStatus.t) (now : Timestamp) (db : Store)
        (a : Application.t) :
  userId sess = Some uid -> userRole sess = Some "admin" ->
  NoDup (map Application.id (applications db)) ->
  Db.findFirst (fun x => String.eqb (Application.applicationNumber x) id)
               (applications db) = Some a ->
  let updated :=
    Application.mk (Application.id a) (Application.applicationNumber a)
      (Application.institutionId a) (Application.applicationType a)
      newStatus
      (Application.institutionName a) (Application.address a)
      (Application.state a) (Application.courseName a) (Application.intake a)
      (Application.description a) (Application.submittedAt a)
      (Application.createdAt a) now in
  let db' := snd (setStatus sess id (Some newStatus) now db) in
  fst (setStatus sess id (Some newStatus) now db) = Json (Some updated)
  /\ lookup_application db' (Application.id a) = Some updated
  /\ (forall i, i <> Application.id a ->
                lookup_application db' i = lookup_application db i)
  /\ map Application.id (applications db') = map Application.id (applications db)
  /\ timelineStages db' = timelineStages db
  /\ users db' = users db /\ institutions db' = institutions db
  /\ documents db' = documents db
  /\ evaluatorAssignments db' = evaluatorAssignments db
  /\ evaluations db' = evaluations db /\ nextId db' = nextId db.
Proof.
  intros Hu Hr Hnd Hfind updated db'.
  assert (Hin : In a (applications db))
    by (apply find_some in Hfind; tauto).
  pose proof (find_primary_key _ _ Hnd Hin) as Hpk.
  subst db'. unfold setStatus.
  rewrite (guarded_authorised _ _ uid "admin") by (assumption || reflexivity).
  rewrite Hfind. cbn [fst snd applications timelineStages users institutions
                      documents evaluatorAssignments evaluations nextId].
  repeat split.
  - rewrite hd_returning, Hpk. reflexivity.
  - unfold lookup_application, Db.findFirst. cbn [applications].
    rewrite find_update by reflexivity. rewrite Hpk. simpl.
    rewrite Nat.eqb_refl. reflexivity.
  - intros i Hi. unfold lookup_application, Db.findFirst. cbn [applications].
    rewrite find_update by reflexivity.
    destruct (find (fun x => Application.id x =? i) (applications db))
      as [b|] eqn:Hb; [|reflexivity].
    simpl. apply find_some in Hb. destruct Hb as [_ Hb].
    apply Nat.eqb_eq in Hb.
    destruct (Application.id b =? Application.id a) eqn:E; [|reflexivity].
    apply Nat.eqb_eq in E. congruence.
  - unfold Db.update. rewrite map_map. apply map_ext.
    intros b. destruct (_ =? _); reflexivity.
Qed.

(** The override applied to the approved application of the concrete run,
    moving it back to draft. *)
Lemma setStatus_sets_status_only_witness :
  fst (setStatus Scenario.admin Scenario.number (Some ApplicationStatus.draft)
                 6000%Z Scenario.decided)
  = Json (Some (Application.mk 100 Scenario.number 10 ApplicationType.new_course
                  ApplicationStatus.draft "Delhi Institute of Technology"
                  "123 Tech Street, New Delhi" "Delhi"
                  (Some "B.Tech in Artificial Intelligence") (Some 60%Z) None
                  (Some 2000%Z) 1000%Z 6000%Z)).
Proof.
  refine (proj1 (setStatus_sets_status_only Scenario.admin 2 Scenario.number
                   ApplicationStatus.draft 6000%Z Scenario.decided
                   (Application.mk 100 Scenario.number 10
                      ApplicationType.new_course ApplicationStatus.approved
                      "Delhi Institute of Technology"
                      "123 Tech Street, New Delhi" "Delhi"
                      (Some "B.Tech in Artificial Intelligence") (Some 60%Z)
                      None (Some 2000%Z) 1000%Z 5000%Z)
                   eq_refl eq_refl _ eq_refl)).
  vm_compute. constructor; [intros [] | constructor].
Defined.

(** ** Submission *)

Lemma timeline_update (set_ : TimelineStage.t -> TimelineStage.t)
      (where_ : TimelineStage.t -> bool) (i : Id)
      (stages : list TimelineStage.t) :
  (forall s, TimelineStage.applicationId (set_ s) = TimelineStage.applicationId s) ->
  filter (fun s => TimelineStage.applicationId s =? i) (Db.update set_ where_ stages)
  = Db.update set_ where_ (filter (fun s => TimelineStage.applicationId s =? i) stages).
Proof.
  intros H. apply filter_update. intros s. rewrite H. reflexivity.
Qed.

(** What a submission makes of the store, once the application is found. *)
Lemma submitApplication_found (sess : Session) (uid : Id) (id : string)
      (now : Timestamp) (db : Store) (a : Application.t) :
  userId sess = Some uid -> userRole sess = Some "institution" ->
  Db.findFirst (fun x => String.eqb (Application.applicationNumber x) id)
               (applications db) = Some a ->
  let set_ x :=
    Application.set_updatedAt now
      (Application.set_submittedAt (Some now)
         (Application.set_status ApplicationStatus.submitted x)) in
  let where_ x := Application.id x =? Application.id a in
  submitApplication sess id now db
  = (Json (hd_error (Db.returning set_ where_ (applications db))),
     mkStore (users db) (institutions db)
       (Db.update set_ where_ (applications db))
       (documents db) (evaluatorAssignments db) (evaluations db)
       (Db.update (TimelineStage.set_status StageStatus.current)
          (fun s => (TimelineStage.applicationId s =? Application.id a)
                    && String.eqb (TimelineStage.title s) "Initial Scrutiny")
          (Db.update
             (fun s => TimelineStage.set_completedAt (Some now)
                         (TimelineStage.set_status StageStatus.completed s))
             (fun s => (TimelineStage.applicationId s =? Application.id a)
                       && String.eqb (TimelineStage.title s) "Application Submitted")
             (timelineStages db)))
       (nextId db)).
Proof.
  intros Hu Hr Hfind set_ where_. unfold submitApplication.
  rewrite (guarded_authorised _ _ uid "institution") by (assumption || reflexivity).
  rewrite Hfind. reflexivity.
Qed.

(** The application a submission was found for is, after it, in status
    submitted with its submission timestamp set, and it is the body of the
    answer. *)
Lemma submitApplication_application (sess : Session) (uid : Id) (id : string)
      (now : Timestamp) (db : Store) (a : Application.t) :
  userId sess = Some uid -> userRole sess = Some "institution" ->
  Db.findFirst (fun x => String.eqb (Application.applicationNumber x) id)
               (applications db) = Some a ->
  exists a',
    fst (submitApplication sess id now db) = Json (Some a')
    /\ lookup_application (snd (submitApplication sess id now db))
                          (Application.id a) = Some a'
    /\ Application.status a' = ApplicationStatus.submitted
    /\ Application.submittedAt a' = Some now.
Proof.
  intros Hu Hr Hfind.
  rewrite (submitApplication_found sess uid id now db a Hu Hr Hfind).
  cbn [fst snd]. unfold lookup_application, Db.findFirst. cbn [applications].
  rewrite hd_returning, find_update by reflexivity.
  assert (Hin : In a (applications db)) by (apply find_some in Hfind; tauto).
  destruct (find (fun x => Application.id x =? Application.id a) (applications db))
    as [b|] eqn:Hb.
  - apply find_some in Hb. destruct Hb as [_ Hb]. simpl. rewrite Hb.
    eexists. repeat split.
  - exfalso. apply (find_none _ _ Hb) in Hin.
    rewrite Nat.eqb_refl in Hin. discriminate.
Qed.

(** A timeline that carries the titles of [timelineStagesData], each once,
    is those six stages in some order. *)
Lemma timeline_arranged (l : list TimelineStage.t) :
  Permutation (map TimelineStage.title l)
              (map (fun x => fst (fst x)) timelineStagesData) ->
  exists s0 s1 s2 s3 s4 s5,
    Permutation l [s0; s1; s2; s3; s4; s5]
    /\ TimelineStage.title s0 = "Application Submitted"
    /\ TimelineStage.title s1 = "Initial Scrutiny"
    /\ TimelineStage.title s2 = "Document Verification"
    /\ TimelineStage.title s3 = "Evaluator Assignment"
    /\ TimelineStage.title s4 = "Site Visit & Evaluation"
    /\ TimelineStage.title s5 = "Final Approval".
Proof.
  intros H. apply Permutation_sym, Permutation_map_inv in H.
  destruct H as (l3 & Htitles & Hperm).
  destruct l3 as [|s0 [|s1 [|s2 [|s3 [|s4 [|s5 [|s6 l3]]]]]]];
    try discriminate Htitles.
  simpl in Htitles. injection Htitles as H0 H1 H2 H3 H4 H5.
  exists s0, s1, s2, s3, s4, s5. repeat split; auto.
Qed.

(** The timeline of the application a submission was found for, after the
    submission: the two updates, on its timeline before. *)
Lemma submitApplication_timeline (sess : Session) (uid : Id) (id : string)
      (now : Timestamp) (db : Store) (a : Application.t) :
  userId sess = Some uid -> userRole sess = Some "institution" ->
  Db.findFirst (fun x => String.eqb (Application.applicationNumber x) id)
               (applications db) = Some a ->
  timeline (snd (submitApplication sess id now db)) (Application.id a)
  = Db.update (TimelineStage.set_status StageStatus.current)
      (fun s => (TimelineStage.applicationId s =? Application.id a)
                && String.eqb (TimelineStage.title s) "Initial Scrutiny")
      (Db.update
         (fun s => TimelineStage.set_completedAt (Some now)
                     (TimelineStage.set_status StageStatus.completed s))
         (fun s => (TimelineStage.applicationId s =? Application.id a)
                   && String.eqb (TimelineStage.title s) "Application Submitted")
         (timeline db (Application.id a))).
Proof.
  intros Hu Hr Hfind.
  rewrite (submitApplication_found sess uid id now db a Hu Hr Hfind).
  unfold timeline, Db.findMany. cbn [snd timelineStages].
  rewrite !timeline_update by reflexivity. reflexivity.
Qed.

(** C4: submitting an existing draft application whose timeline is made of
    the six stages the engine created makes its status submitted and sets
    [submittedAt]; and in every result of the timeline query there is then
    exactly one stage titled Application Submitted, the first stage of the
    engine's list, which is completed, and exactly one titled Initial
    Scrutiny, the second, which is current.  The stages are told by their
    titles: the query orders them by a creation time they share, and gives
    them no fixed position. *)
Theorem submit_draft_application
        (sess : Session) (uid : Id) (id : string) (now : Timestamp)
        (db : Store) (a : Application.t) :
  userId sess = Some uid -> userRole sess = Some "institution" ->
  Db.findFirst (fun x => String.eqb (Application.applicationNumber x) id)
               (applications db) = Some a ->
  Application.status a = ApplicationStatus.draft ->
  Permutation (map TimelineStage.title (timeline db (Application.id a)))
              (map (fun x => fst (fst x)) timelineStagesData) ->
  let db' := snd (submitApplication sess id now db) in
  (exists a',
      fst (submitApplication sess id now db) = Json (Some a')
      /\ lookup_application db' (Application.id a) = Some a'
      /\ Application.status a' = ApplicationStatus.submitted
      /\ Application.submittedAt a' = Some now)
  /\ forall stages,
      timeline_read db' (Application.id a) stages ->
      exists s0 s1 others,
        Permutation stages (s0 :: s1 :: others)
        /\ TimelineStage.title s0 = "Application Submitted"
        /\ TimelineStage.status s0 = StageStatus.completed
        /\ TimelineStage.title s1 = "Initial Scrutiny"
        /\ TimelineStage.status s1 = StageStatus.current
        /\ forall s, In s others ->
                     TimelineStage.title s <> "Application Submitted"
                     /\ TimelineStage.title s <> "Initial Scrutiny".
Proof.
  intros Hu Hr Hfind _ Htitles db'. split.
  - exact (submitApplication_application sess uid id now db a Hu Hr Hfind).
  - intros stages [Hperm _]. subst db'.
    rewrite (submitApplication_timeline sess uid id now db a Hu Hr Hfind) in Hperm.
    assert (Hown : forall s, In s (timeline db (Application.id a)) ->
                             (TimelineStage.applicationId s =? Application.id a) = true).
    { intros s Hs. unfold timeline, Db.findMany in Hs.
      apply filter_In in Hs. tauto. }
    destruct (timeline_arranged _ Htitles)
      as (s0 & s1 & s2 & s3 & s4 & s5 & Harr & H0 & H1 & H2 & H3 & H4 & H5).
    assert (Hown' : forall s, In s [s0; s1; s2; s3; s4; s5] ->
                              (TimelineStage.applicationId s =? Application.id a) = true).
    { intros s Hs. apply Hown.
      apply (Permutation_in s (Permutation_sym Harr)). exact Hs. }
    pose proof (Hown' s0 (or_introl eq_refl)) as O0.
    pose proof (Hown' s1 (or_intror (or_introl eq_refl))) as O1.
    pose proof (Hown' s2 (or_intror (or_intror (or_introl eq_refl)))) as O2.
    pose proof (Hown' s3 (or_intror (or_intror (or_intror (or_introl eq_refl))))) as O3.
    pose proof (Hown' s4 (or_intror (or_intror (or_intror (or_intror
                            (or_introl eq_refl)))))) as O4.
    pose proof (Hown' s5 (or_intror (or_intror (or_intror (or_intror
                            (or_intror (or_introl eq_refl))))))) as O5.
    unfold Db.update in Hperm. rewrite map_map in Hperm.
    pose proof (Permutation_trans Hperm (Permutation_map _ Harr)) as Hp.
    clear Hperm Harr Hown Hown' Htitles Hfind.
    destruct s0, s1, s2, s3, s4, s5.
    cbn [TimelineStage.applicationId TimelineStage.title] in *. subst.
    cbn [map TimelineStage.set_status TimelineStage.set_completedAt
         TimelineStage.applicationId TimelineStage.title TimelineStage.id
         TimelineStage.description TimelineStage.status TimelineStage.assignedTo
         TimelineStage.completedAt TimelineStage.createdAt] in Hp.
    rewrite O0, O1, O2, O3, O4, O5 in Hp. cbn in Hp.
    rewrite ?O0, ?O1, ?O2, ?O3, ?O4, ?O5 in Hp. cbn in Hp.
    eexists _, _, _.
    split; [exact Hp|].
    cbn [TimelineStage.title TimelineStage.status].
    repeat split;
      destruct H as [<-|[<-|[<-|[<-|[]]]]]; discriminate.
Qed.

(** The submission of the concrete run, read with the two stages it
    rewrote coming last. *)
Lemma submit_draft_application_witness :
  timeline_read Scenario.submitted 100 Scenario.submitted_read
  /\ map TimelineStage.title Scenario.submitted_read
     = [ "Document Verification"; "Evaluator Assignment";
         "Site Visit & Evaluation"; "Final Approval";
         "Application Submitted"; "Initial Scrutiny" ]
  /\ exists s0 s1 others,
      Permutation Scenario.submitted_read (s0 :: s1 :: others)
      /\ TimelineStage.title s0 = "Application Submitted"
      /\ TimelineStage.status s0 = StageStatus.completed
      /\ TimelineStage.title s1 = "Initial Scrutiny"
      /\ TimelineStage.status s1 = StageStatus.current
      /\ forall s, In s others ->
                   TimelineStage.title s <> "Application Submitted"
                   /\ TimelineStage.title s <> "Initial Scrutiny".
Proof.
  assert (Hread : timeline_read Scenario.submitted 100 Scenario.submitted_read).
  { split.
    - unfold Scenario.submitted_read.
      eapply Permutation_trans; [apply Permutation_app_comm|].
      rewrite firstn_skipn. apply Permutation_refl.
    - let l := eval vm_compute in Scenario.submitted_read in
      change Scenario.submitted_read with l.
      repeat constructor; cbn; lia. }
  split; [exact Hread|]. split; [vm_compute; reflexivity|].
  exact (proj2 (submit_draft_application Scenario.institution 1 Scenario.number
                  2000%Z Scenario.created
                  (Application.mk 100 Scenario.number 10 ApplicationType.new_course
                     ApplicationStatus.draft "Delhi Institute of Technology"
                     "123 Tech Street, New Delhi" "Delhi"
                     (Some "B.Tech in Artificial Intelligence") (Some 60%Z) None
                     None 1000%Z 1000%Z)
                  eq_refl eq_refl eq_refl eq_refl (Permutation_refl _))
           Scenario.submitted_read Hread).
Defined.

(** C2, as the route has it: a submission for a number no application
    carries is answered 404 and changes nothing; a submission for an
    existing application succeeds whatever the current status is and leaves
    it submitted, so that a second submission succeeds as well. *)
Theorem submit_not_found_or_success
        (sess : Session) (uid : Id) (id : string) (now : Timestamp) (db : Store) :
  userId sess = Some uid -> userRole sess = Some "institution" ->
  (Db.findFirst (fun x => String.eqb (Application.applicationNumber x) id)
                (applications db) = None ->
   NotFoundError (fst (submitApplication sess id now db))
   /\ snd (submitApplication sess id now db) = db)
  /\ (forall a,
        Db.findFirst (fun x => String.eqb (Application.applicationNumber x) id)
                     (applications db) = Some a ->
        let db' := snd (submitApplication sess id now db) in
        is_error (fst (submitApplication sess id now db)) = false
        /\ (exists a', lookup_application db' (Application.id a) = Some a'
                       /\ Application.status a' = ApplicationStatus.submitted)
        /\ forall now', is_error (fst (submitApplication sess id now' db')) = false).
Proof.
  intros Hu Hr. split.
  - intros Hnone. unfold submitApplication.
    rewrite (guarded_authorised _ _ uid "institution") by (assumption || reflexivity).
    rewrite Hnone. split; [eexists; reflexivity | reflexivity].
  - intros a Hfind db'.
    destruct (submitApplication_application sess uid id now db a Hu Hr Hfind)
      as (a' & Hres & Hlook & Hst & _).
    split; [rewrite Hres; reflexivity|].
    split; [exists a'; split; assumption|].
    intros now'.
    assert (Hfind' : exists b,
               Db.findFirst
                 (fun x => String.eqb (Application.applicationNumber x) id)
                 (applications db') = Some b).
    { subst db'. rewrite (submitApplication_found sess uid id now db a Hu Hr Hfind).
      cbn [snd applications]. unfold Db.findFirst in *.
      rewrite find_update by reflexivity. rewrite Hfind. simpl. eauto. }
    destruct Hfind' as [b Hb].
    rewrite (submitApplication_found sess uid id now' db' b Hu Hr Hb).
    reflexivity.
Qed.

Lemma submit_not_found_or_success_witness :
  is_error (fst (submitApplication Scenario.institution Scenario.number 2000%Z
                                   Scenario.created)) = false
  /\ NotFoundError (fst (submitApplication Scenario.institution "APP-2025-999999"
                                           2000%Z Scenario.created)).
Proof.
  pose proof (submit_not_found_or_success Scenario.institution 1 Scenario.number
                2000%Z Scenario.created eq_refl eq_refl) as [_ Hfound].
  pose proof (submit_not_found_or_success Scenario.institution 1 "APP-2025-999999"
                2000%Z Scenario.created eq_refl eq_refl) as [Hmissing _].
  split.
  - exact (proj1 (Hfound _ eq_refl)).
  - exact (proj1 (Hmissing eq_refl)).
Defined.

(** C2 fails on the route: the application of the concrete run is no
    longer a draft once submitted, and a second submission is answered with
    the application, not with an error. *)
Lemma second_submit_succeeds :
  option_map Application.status (lookup_application Scenario.submitted 100)
  = Some ApplicationStatus.submitted
  /\ is_error (fst (submitApplication Scenario.institution Scenario.number
                                      2500%Z Scenario.submitted)) = false
  /\ option_map Application.submittedAt
       (lookup_application
          (snd (submitApplication Scenario.institution Scenario.number
                                  2500%Z Scenario.submitted)) 100)
     = Some (Some 2500%Z).
Proof.
  split; [|split]; vm_compute; reflexivity.
Qed.

(** ** The timeline invariant *)

Lemma map_update {A B} (g : A -> B) (h : B -> B) (set_ : A -> A)
      (where_ : A -> bool) (l : list A) :
  (forall s, In s l -> g (if where_ s then set_ s else s) = h (g s)) ->
  map g (Db.update set_ where_ l) = map h (map g l).
Proof.
  intros H. unfold Db.update. rewrite !map_map. apply map_ext_in. exact H.
Qed.

Lemma filter_none {A} (p : A -> bool) (l : list A) :
  (forall x, In x l -> p x = false) -> filter p l = [].
Proof.
  induction l as [|x l IH]; simpl; intros H; [reflexivity|].
  rewrite (H x) by (left; reflexivity). apply IH. intros y Hy. apply H. right. exact Hy.
Qed.

Lemma count_current_view (stages : list TimelineStage.t) :
  count_current stages
  = List.length (filter (fun v => StageStatus.is_current (snd v))
                        (map stage_view stages)).
Proof.
  unfold count_current.
  induction stages as [|s stages IH]; simpl; [reflexivity|].
  destruct (StageStatus.is_current (TimelineStage.status s)); simpl; rewrite IH;
    reflexivity.
Qed.

Lemma engine_timelines_count (base : Id) (db : Store) (i : Id) :
  engine_timelines base db -> base <= i -> count_current (timeline db i) <= 1.
Proof.
  intros [_ Hv] Hi. rewrite count_current_view. fold (timeline_view db i).
  destruct (Hv i Hi) as [E|[E|E]]; rewrite E; simpl; lia.
Qed.

(** A request that leaves the stages alone keeps the invariant. *)
Lemma engine_timelines_frame (base : Id) (db db' : Store) :
  timelineStages db' = timelineStages db /\ nextId db <= nextId db' ->
  engine_timelines base db -> engine_timelines base db'.
Proof.
  intros [Hs Hn] [Hb Hv]. split.
  - unfold stages_reference_known_ids. rewrite Hs. intros s H. apply Hb in H. lia.
  - intros i. unfold timeline_view, timeline in *. rewrite Hs. apply Hv.
Qed.

Ltac frame_route :=
  apply guarded_store; [split; [reflexivity | lia] |];
  intros ?;
  repeat match goal with
         | |- context [match ?x with _ => _ end] => destruct x
         end;
  cbn [snd timelineStages nextId]; split; (reflexivity || lia).

Lemma setStatus_frame_stages (sess : Session) (id : string)
      (body : option ApplicationStatus.t) (now : Timestamp) (db : Store) :
  let db' := snd (setStatus sess id body now db) in
  timelineStages db' = timelineStages db /\ nextId db <= nextId db'.
Proof. unfold setStatus. frame_route. Qed.

Lemma assignEvaluator_frame_stages (sc : Constraints) (sess : Session)
      (body : option AssignEvaluatorBody) (now : Timestamp) (db : Store) :
  let db' := snd (assignEvaluator sc sess body now db) in
  timelineStages db' = timelineStages db /\ nextId db <= nextId db'.
Proof. unfold assignEvaluator. frame_route. Qed.

Lemma recordEvaluation_frame_stages (sc : Constraints) (sess : Session)
      (body : option SubmitEvaluationBody) (now : Timestamp) (db : Store) :
  let db' := snd (recordEvaluation sc sess body now db) in
  timelineStages db' = timelineStages db /\ nextId db <= nextId db'.
Proof. unfold recordEvaluation. frame_route. Qed.

Lemma createApplication_engine_timelines (base : Id) (sc : Constraints)
      (sess : Session) (body : option CreateApplicationBody)
      (appNumber : string) (now : Timestamp) (db : Store) :
  engine_timelines base db ->
  engine_timelines base (snd (createApplication sc sess body appNumber now db)).
Proof.
  intros Hinv. unfold createApplication. apply guarded_store; [exact Hinv|].
  intros uid. destruct body as [b|]; [|exact Hinv].
  destruct (Db.findFirst _ _) as [inst|]; [|exact Hinv].
  destruct (_ && _); [exact Hinv|].
  cbn [snd]. destruct Hinv as [Hb Hv]. split.
  - unfold stages_reference_known_ids. cbn [timelineStages nextId].
    intros s Hs. unfold Db.insert in Hs.
    apply in_app_or in Hs. destruct Hs as [Hs|Hs].
    + apply Hb in Hs. lia.
    + simpl in Hs. repeat (destruct Hs as [<-|Hs]; [simpl; lia|]). contradiction.
  - intros i Hi. unfold timeline_view, timeline, Db.findMany.
    cbn [timelineStages]. unfold Db.insert. rewrite filter_app, map_app.
    destruct (Nat.eq_dec i (nextId db)) as [->|Hne].
    + right. left. rewrite filter_none.
      * simpl. rewrite Nat.eqb_refl. reflexivity.
      * intros s Hs. apply Hb in Hs. apply Nat.eqb_neq. lia.
    + simpl. apply Nat.eqb_neq in Hne. rewrite Nat.eqb_sym in Hne.
      rewrite Hne. simpl. rewrite app_nil_r. apply Hv. exact Hi.
Qed.

Lemma submitApplication_engine_timelines (base : Id) (sess : Session)
      (id : string) (now : Timestamp) (db : Store) :
  engine_timelines base db ->
  engine_timelines base (snd (submitApplication sess id now db)).
Proof.
  intros Hinv. unfold submitApplication. apply guarded_store; [exact Hinv|].
  intros uid. destruct (Db.findFirst _ _) as [a|]; [|exact Hinv].
  cbn [snd]. destruct Hinv as [Hb Hv]. split.
  - unfold stages_reference_known_ids. cbn [timelineStages nextId].
    intros s Hs. unfold Db.update in Hs.
    rewrite map_map in Hs. apply in_map_iff in Hs.
    destruct Hs as (s0 & <- & Hs0). apply Hb in Hs0.
    repeat match goal with
           | |- context [if ?c then _ else _] => destruct c
           end; exact Hs0.
  - intros i Hi. specialize (Hv i Hi).
    unfold timeline_view, timeline, Db.findMany in *. cbn [timelineStages].
    rewrite timeline_update by reflexivity.
    destruct (Nat.eq_dec i (Application.id a)) as [->|Hne].
    + rewrite (map_update stage_view
                 (fun v => if String.eqb (fst v) "Initial Scrutiny"
                           then (fst v, StageStatus.current) else v)).
      2:{ intros s Hs. apply filter_In in Hs. destruct Hs as [_ Hs].
          rewrite Hs. simpl. unfold stage_view at 2. simpl.
          destruct (String.eqb _ _); reflexivity. }
      rewrite timeline_update by reflexivity.
      rewrite (map_update stage_view
                 (fun v => if String.eqb (fst v) "Application Submitted"
                           then (fst v, StageStatus.completed) else v)).
      2:{ intros s Hs. apply filter_In in Hs. destruct Hs as [_ Hs].
          rewrite Hs. simpl. unfold stage_view at 2. simpl.
          destruct (String.eqb _ _); reflexivity. }
      destruct Hv as [E|[E|E]]; rewrite E; simpl; auto.
    + rewrite update_none.
      2:{ intros s Hs. apply filter_In in Hs. destruct Hs as [_ Hs].
          apply Nat.eqb_eq in Hs. apply Nat.eqb_neq in Hne.
          rewrite Hs, Hne. reflexivity. }
      rewrite timeline_update by reflexivity.
      rewrite update_none; [exact Hv|].
      intros s Hs. apply filter_In in Hs. destruct Hs as [_ Hs].
      apply Nat.eqb_eq in Hs. apply Nat.eqb_neq in Hne.
      rewrite Hs, Hne. reflexivity.
Qed.

Lemma step_engine_timelines (base : Id) (sc : Constraints) (db : Store)
      (op : Operation) :
  engine_timelines base db -> engine_timelines base (step sc db op).
Proof.
  intros Hinv. destruct op; simpl.
  - apply createApplication_engine_timelines. exact Hinv.
  - apply submitApplication_engine_timelines. exact Hinv.
  - eapply engine_timelines_frame; [apply assignEvaluator_frame_stages | exact Hinv].
  - eapply engine_timelines_frame; [apply recordEvaluation_frame_stages | exact Hinv].
  - eapply engine_timelines_frame; [apply setStatus_frame_stages | exact Hinv].
Qed.

Lemma run_engine_timelines (base : Id) (sc : Constraints)
      (ops : list Operation) (db : Store) :
  engine_timelines base db -> engine_timelines base (run sc ops db).
Proof.
  revert db. induction ops as [|op ops IH]; intros db Hinv; simpl; [exact Hinv|].
  apply IH. apply step_engine_timelines. exact Hinv.
Qed.

(** C3: from any store whose stages reference identifiers already
    generated, after every operation of every sequence of engine operations
    (create, submit, assign evaluator, record evaluation, admin status
    set), every application the engine has created, that is every
    application with an identifier generated since the start, has at most
    one timeline stage whose status is current. *)
Theorem at_most_one_current_stage
        (sc : Constraints) (db0 : Store) (ops : list Operation) (k : nat) (i : Id) :
  stages_reference_known_ids db0 ->
  nextId db0 <= i ->
  count_current (timeline (run sc (firstn k ops) db0) i) <= 1.
Proof.
  intros Hknown Hi.
  apply (engine_timelines_count (nextId db0)); [|exact Hi].
  apply run_engine_timelines. split; [exact Hknown|].
  intros j Hj. left. unfold timeline_view, timeline, Db.findMany.
  rewrite filter_none; [reflexivity|].
  intros s Hs. apply Hknown in Hs. apply Nat.eqb_neq. lia.
Qed.

(** The application of the concrete run, after its creation and its
    submission. *)
Lemma at_most_one_current_stage_witness :
  count_current (timeline Scenario.submitted 100) <= 1.
Proof.
  refine (at_most_one_current_stage Scenario.sc Scenario.registered
            Scenario.operations 2 100 _ _).
  - intros s Hs. simpl in Hs. contradiction.
  - simpl. lia.
Defined.

(** ** Recording an evaluation *)

Lemma find_existsb {A} (p : A -> bool) (l : list A) (x : A) :
  find p l = Some x -> existsb p l = true.
Proof.
  intros H. apply find_some in H. apply existsb_exists. exists x. exact H.
Qed.

(** The route never writes the applications. *)
Lemma recordEvaluation_applications (sc : Constraints) (sess : Session)
      (body : option SubmitEvaluationBody) (now : Timestamp) (db : Store) :
  applications (snd (recordEvaluation sc sess body now db)) = applications db.
Proof.
  unfold recordEvaluation. apply guarded_store; [reflexivity|].
  intros uid. destruct body as [b|]; [|reflexivity].
  destruct (_ && _); reflexivity.
Qed.

(** What the route makes of the store once the insert is accepted. *)
Lemma recordEvaluation_accepted (sc : Constraints) (sess : Session) (uid : Id)
      (b : SubmitEvaluationBody) (now : Timestamp) (db : Store) :
  userId sess = Some uid -> userRole sess = Some "evaluator" ->
  foreign_keys sc
  && negb (has_assignment db (eval_assignmentId b)
           && has_application db (eval_applicationId b)
           && has_user db uid) = false ->
  let evaluation :=
    Evaluation.mk (nextId db) (eval_assignmentId b) (eval_applicationId b) uid
      (eval_score b) (eval_comments b) (eval_recommendation b)
      (eval_siteVisitNotes b) in
  recordEvaluation sc sess (Some b) now db
  = (Json evaluation,
     mkStore (users db) (institutions db) (applications db) (documents db)
       (completeAssignment (eval_assignmentId b) now (evaluatorAssignments db))
       (Db.insert [evaluation] (evaluations db))
       (timelineStages db) (S (nextId db))).
Proof.
  intros Hu Hr Hfk evaluation. unfold recordEvaluation.
  rewrite (guarded_authorised _ _ uid "evaluator") by (assumption || reflexivity).
  rewrite Hfk. reflexivity.
Qed.

(** C1, as the route has it: recording an evaluation on an assignment A of
    an application X under evaluation, whatever the recommendation
    (Approve and Reject included), stores the evaluation and marks A
    completed; the status of X stays under_evaluation and no stage of its
    timeline changes. *)
Theorem recordEvaluation_keeps_status_and_stages
        (sc : Constraints) (sess : Session) (uid : Id)
        (b : SubmitEvaluationBody) (now : Timestamp) (db : Store)
        (A : EvaluatorAssignment.t) (X : Application.t) :
  userId sess = Some uid -> userRole sess = Some "evaluator" ->
  has_user db uid = true ->
  lookup_assignment db (eval_assignmentId b) = Some A ->
  EvaluatorAssignment.applicationId A = eval_applicationId b ->
  lookup_application db (eval_applicationId b) = Some X ->
  Application.status X = ApplicationStatus.under_evaluation ->
  let db' := snd (recordEvaluation sc sess (Some b) now db) in
  (exists ev, fst (recordEvaluation sc sess (Some b) now db) = Json ev
              /\ Evaluation.recommendation ev = eval_recommendation b
              /\ evaluations db' = (evaluations db ++ [ev])%list)
  /\ lookup_assignment db' (eval_assignmentId b)
     = Some (EvaluatorAssignment.set_completedAt (Some now) A)
  /\ (exists X', lookup_application db' (eval_applicationId b) = Some X'
                 /\ Application.status X' = ApplicationStatus.under_evaluation)
  /\ applications db' = applications db
  /\ timeline db' (eval_applicationId b) = timeline db (eval_applicationId b).
Proof.
  intros Hu Hr Huser HA _ HX Hstatus db'.
  assert (Hfk : foreign_keys sc
                && negb (has_assignment db (eval_assignmentId b)
                         && has_application db (eval_applicationId b)
                         && has_user db uid) = false).
  { unfold has_assignment, has_application.
    rewrite (find_existsb _ _ _ HA), (find_existsb _ _ _ HX), Huser.
    apply andb_false_r. }
  subst db'. rewrite (recordEvaluation_accepted sc sess uid b now db Hu Hr Hfk).
  cbn [fst snd]. split; [|split; [|split; [|split]]].
  - eexists. split; [reflexivity|]. split; reflexivity.
  - unfold lookup_assignment, Db.findFirst, completeAssignment in *.
    cbn [evaluatorAssignments]. rewrite find_update by reflexivity.
    rewrite HA. simpl. apply find_some in HA. destruct HA as [_ HA].
    rewrite HA. reflexivity.
  - exists X. split; [exact HX | exact Hstatus].
  - reflexivity.
  - reflexivity.
Qed.

(** The evaluation of the concrete run. *)
Lemma recordEvaluation_keeps_status_and_stages_witness :
  exists X', lookup_application Scenario.evaluated 100 = Some X'
             /\ Application.status X' = ApplicationStatus.under_evaluation.
Proof.
  refine (proj1 (proj2 (proj2
    (recordEvaluation_keeps_status_and_stages Scenario.sc Scenario.evaluator 3
       Scenario.approve 4000%Z Scenario.assigned
       (EvaluatorAssignment.mk 107 100 3 Priority.high None None)
       (Application.mk 100 Scenario.number 10 ApplicationType.new_course
          ApplicationStatus.under_evaluation "Delhi Institute of Technology"
          "123 Tech Street, New Delhi" "Delhi"
          (Some "B.Tech in Artificial Intelligence") (Some 60%Z) None
          (Some 2000%Z) 1000%Z 3000%Z)
       eq_refl eq_refl eq_refl eq_refl eq_refl eq_refl eq_refl)))).
Defined.

(** C1 fails on the route: in the concrete run the assignment 107 belongs
    to the application 100, which is under evaluation; the evaluation
    recommending approval is accepted, and afterwards the application is
    still under evaluation, with one stage completed only. *)
Lemma approve_does_not_approve :
  option_map EvaluatorAssignment.applicationId
    (lookup_assignment Scenario.assigned 107) = Some 100
  /\ option_map Application.status (lookup_application Scenario.assigned 100)
     = Some ApplicationStatus.under_evaluation
  /\ eval_recommendation Scenario.approve = "Approve"
  /\ is_error (fst (recordEvaluation Scenario.sc Scenario.evaluator
                      (Some Scenario.approve) 4000%Z Scenario.assigned)) = false
  /\ option_map Application.status (lookup_application Scenario.evaluated 100)
     = Some ApplicationStatus.under_evaluation
  /\ map TimelineStage.status (timeline Scenario.evaluated 100)
     = [ StageStatus.completed; StageStatus.current; StageStatus.pending;
         StageStatus.pending; StageStatus.pending; StageStatus.pending ].
Proof.
  split; [|split; [|split; [|split; [|split]]]]; vm_compute; reflexivity.
Qed.

(** C8, as the route has it: the route looks no assignment up.  When none
    has the given identifier the answer is never 404 and no assignment is
    completed; where the schema's references are enforced the insert is
    refused, the answer is 500 and nothing is stored, and otherwise the
    request succeeds and the evaluation is stored. *)
Theorem recordEvaluation_missing_assignment
        (sc : Constraints) (sess : Session) (uid : Id)
        (b : SubmitEvaluationBody) (now : Timestamp) (db : Store) :
  userId sess = Some uid -> userRole sess = Some "evaluator" ->
  has_assignment db (eval_assignmentId b) = false ->
  let r := recordEvaluation sc sess (Some b) now db in
  ~ NotFoundError (fst r)
  /\ evaluatorAssignments (snd r) = evaluatorAssignments db
  /\ (foreign_keys sc = true ->
      fst r = Status 500 "Failed to submit evaluation" /\ snd r = db)
  /\ (foreign_keys sc = false ->
      exists ev, fst r = Json ev
                 /\ Evaluation.assignmentId ev = eval_assignmentId b
                 /\ evaluations (snd r) = (evaluations db ++ [ev])%list).
Proof.
  intros Hu Hr Hmissing r. subst r. unfold recordEvaluation.
  rewrite (guarded_authorised _ _ uid "evaluator") by (assumption || reflexivity).
  rewrite Hmissing. cbn [andb negb].
  assert (Hnone : completeAssignment (eval_assignmentId b) now
                    (evaluatorAssignments db) = evaluatorAssignments db).
  { apply update_none. apply existsb_false_find. exact Hmissing. }
  destruct (foreign_keys sc); cbn [andb fst snd evaluatorAssignments evaluations].
  - split; [intros [m Hm]; discriminate|]. split; [reflexivity|].
    split; [auto | discriminate].
  - split; [intros [m Hm]; discriminate|]. split; [exact Hnone|].
    split; [discriminate|]. intros _. eexists. repeat split.
Qed.

(** An evaluation for the assignment 107, sent before any assignment
    exists. *)
Lemma recordEvaluation_missing_assignment_witness :
  fst (recordEvaluation Scenario.sc Scenario.evaluator
         (Some Scenario.approve) 4000%Z Scenario.submitted)
  = Status 500 "Failed to submit evaluation"
  /\ snd (recordEvaluation Scenario.sc Scenario.evaluator
            (Some Scenario.approve) 4000%Z Scenario.submitted)
     = Scenario.submitted.
Proof.
  refine (proj1 (proj2 (proj2
    (recordEvaluation_missing_assignment Scenario.sc Scenario.evaluator
       3 Scenario.approve 4000%Z Scenario.submitted _ _ _))) _);
    vm_compute; reflexivity.
Defined.

(** C8 fails on the route: with no assignment in the store, the request is
    answered 500 when the references are enforced, and succeeds, storing
    the evaluation, when they are not; neither is NotFound. *)
Lemma missing_assignment_is_not_reported :
  evaluatorAssignments Scenario.submitted = []
  /\ fst (recordEvaluation (mkConstraints true true) Scenario.evaluator
            (Some Scenario.approve) 4000%Z Scenario.submitted)
     = Status 500 "Failed to submit evaluation"
  /\ fst (recordEvaluation (mkConstraints false true) Scenario.evaluator
            (Some Scenario.approve) 4000%Z Scenario.submitted)
     = Json (Evaluation.mk 107 107 100 3 85%Z (Some "All requirements met.")
               "Approve" None)
  /\ evaluations (snd (recordEvaluation (mkConstraints false true)
                         Scenario.evaluator (Some Scenario.approve) 4000%Z
                         Scenario.submitted))
     = [ Evaluation.mk 107 107 100 3 85%Z (Some "All requirements met.")
           "Approve" None ].
Proof.
  split; [|split; [|split]]; vm_compute; reflexivity.
Qed.

(** ** Terminal statuses *)

(** C7, as the routes have it: recording an evaluation never changes the
    status of an application, terminal or not; submission and evaluator
    assignment carry no guard on the current status and move a terminal
    application to submitted and to under_evaluation. *)
Theorem terminal_status_and_guided_operations
        (sc : Constraints) (db : Store) (X : Application.t) :
  lookup_application db (Application.id X) = Some X ->
  ApplicationStatus.terminal (Application.status X) = true ->
  (forall sess body now,
      lookup_application (snd (recordEvaluation sc sess body now db))
                         (Application.id X) = Some X)
  /\ (forall sess uid now,
         userId sess = Some uid -> userRole sess = Some "institution" ->
         Db.findFirst
           (fun x => String.eqb (Application.applicationNumber x)
                                (Application.applicationNumber X))
           (applications db) = Some X ->
         exists X',
           lookup_application
             (snd (submitApplication sess (Application.applicationNumber X) now db))
             (Application.id X) = Some X'
           /\ Application.status X' = ApplicationStatus.submitted)
  /\ (forall sess uid b now,
         userId sess = Some uid -> userRole sess = Some "admin" ->
         assign_applicationId b = Application.id X ->
         has_user db (assign_evaluatorId b) = true ->
         exists X',
           lookup_application (snd (assignEvaluator sc sess (Some b) now db))
                              (Application.id X) = Some X'
           /\ Application.status X' = ApplicationStatus.under_evaluation).
Proof.
  intros HX _. split; [|split].
  - intros sess body now. unfold lookup_application.
    rewrite recordEvaluation_applications. exact HX.
  - intros sess uid now Hu Hr Hfind.
    destruct (submitApplication_application sess uid _ now db X Hu Hr Hfind)
      as (X' & _ & Hlook & Hst & _).
    exists X'. split; assumption.
  - intros sess uid b now Hu Hr Hb Huser. unfold assignEvaluator.
    rewrite (guarded_authorised _ _ uid "admin") by (assumption || reflexivity).
    unfold has_application. rewrite Hb, (find_existsb _ _ _ HX), Huser.
    rewrite andb_false_r. cbn [snd]. unfold lookup_application, Db.findFirst in *.
    cbn [applications]. rewrite find_update by reflexivity. rewrite HX. simpl.
    rewrite Nat.eqb_refl. eexists. split; reflexivity.
Qed.

(** The approved application of the concrete run. *)
Lemma terminal_status_and_guided_operations_witness :
  exists X',
    lookup_application
      (snd (submitApplication Scenario.institution Scenario.number 6000%Z
                              Scenario.decided)) 100 = Some X'
    /\ Application.status X' = ApplicationStatus.submitted.
Proof.
  refine (proj1 (proj2
    (terminal_status_and_guided_operations Scenario.sc Scenario.decided
       (Application.mk 100 Scenario.number 10 ApplicationType.new_course
          ApplicationStatus.approved "Delhi Institute of Technology"
          "123 Tech Street, New Delhi" "Delhi"
          (Some "B.Tech in Artificial Intelligence") (Some 60%Z) None
          (Some 2000%Z) 1000%Z 5000%Z)
       eq_refl eq_refl)) Scenario.institution 1 6000%Z eq_refl eq_refl eq_refl).
Defined.

(** C7 fails on the routes: the application of the concrete run is
    approved; a submission makes it submitted again, and an evaluator
    assignment puts it under evaluation. *)
Lemma guided_operations_leave_terminal_status :
  option_map Application.status (lookup_application Scenario.decided 100)
  = Some ApplicationStatus.approved
  /\ option_map Application.status
       (lookup_application
          (snd (submitApplication Scenario.institution Scenario.number
                                  6000%Z Scenario.decided)) 100)
     = Some ApplicationStatus.submitted
  /\ option_map Application.status
       (lookup_application
          (snd (assignEvaluator Scenario.sc Scenario.admin
                  (Some Scenario.assignment) 6000%Z Scenario.decided)) 100)
     = Some ApplicationStatus.under_evaluation.
Proof.
  split; [|split]; vm_compute; reflexivity.
Qed.

(** ** Completion of an assignment *)

(** C10, as the route has it: completing an assignment is never an error
    and keeps the rows of the table, but it is not a no-op: every
    assignment with the given identifier gets the time of the request as
    its completion timestamp, whether one was set or not, and the other
    assignments are kept; repeating the step at the same instant changes
    nothing more, and an assignment already completed is left as it was
    exactly when the clock shows its stored completion time. *)
Theorem completeAssignment_overwrites
        (assignmentId : Id) (now : Timestamp) (rows : list EvaluatorAssignment.t) :
  map EvaluatorAssignment.id (completeAssignment assignmentId now rows)
  = map EvaluatorAssignment.id rows
  /\ (forall i,
        Db.findFirst (fun x => EvaluatorAssignment.id x =? i)
                     (completeAssignment assignmentId now rows)
        = option_map
            (fun x => if i =? assignmentId
                      then EvaluatorAssignment.set_completedAt (Some now) x
                      else x)
            (Db.findFirst (fun x => EvaluatorAssignment.id x =? i) rows))
  /\ completeAssignment assignmentId now (completeAssignment assignmentId now rows)
     = completeAssignment assignmentId now rows
  /\ (forall x t,
        EvaluatorAssignment.completedAt x = Some t ->
        EvaluatorAssignment.set_completedAt (Some now) x = x <-> now = t).
Proof.
  unfold completeAssignment, Db.findFirst. split; [|split; [|split]].
  - unfold Db.update. rewrite map_map. apply map_ext. intros x.
    destruct (_ =? _); reflexivity.
  - intros i. rewrite find_update by reflexivity.
    destruct (find _ rows) as [x|] eqn:Hx; [|reflexivity]. simpl.
    apply find_some in Hx. destruct Hx as [_ Hx]. apply Nat.eqb_eq in Hx.
    rewrite Hx. reflexivity.
  - unfold Db.update. rewrite map_map. apply map_ext. intros x.
    destruct (EvaluatorAssignment.id x =? assignmentId) eqn:E; simpl; rewrite E;
      reflexivity.
  - intros x t Hx. split.
    + intros H. apply (f_equal EvaluatorAssignment.completedAt) in H.
      simpl in H. congruence.
    + intros ->. destruct x. simpl in Hx. subst. reflexivity.
Qed.

(** C10 fails on the route: the assignment 107 of the concrete run was
    completed at 4000; a second evaluation recorded on it at 9000 is
    accepted and replaces the stored completion timestamp. *)
Lemma second_completion_overwrites :
  option_map EvaluatorAssignment.completedAt
    (lookup_assignment Scenario.evaluated 107) = Some (Some 4000%Z)
  /\ is_error (fst (recordEvaluation Scenario.sc Scenario.evaluator
                      (Some Scenario.approve) 9000%Z Scenario.evaluated)) = false
  /\ option_map EvaluatorAssignment.completedAt
       (lookup_assignment
          (snd (recordEvaluation Scenario.sc Scenario.evaluator
                  (Some Scenario.approve) 9000%Z Scenario.evaluated)) 107)
     = Some (Some 9000%Z)
  /\ completeAssignment 107 9000%Z (evaluatorAssignments Scenario.evaluated)
     <> evaluatorAssignments Scenario.evaluated.
Proof.
  split; [|split; [|split]]; vm_compute; try reflexivity. discriminate.
Qed.

(** ** The tracker's progress *)

Lemma reviewed_le_total (docs : list Document.t) :
  List.length (filter is_doc_approved docs)
  + List.length (filter is_doc_rejected docs) <= List.length docs.
Proof.
  induction docs as [|d docs IH]; simpl; [lia|].
  destruct (is_doc_approved d) eqn:Ea, (is_doc_rejected d) eqn:Er; simpl;
    try lia.
  unfold is_doc_approved in Ea. unfold is_doc_rejected in Er.
  destruct (Document.status d); discriminate.
Qed.

(** Below forty documents the double-precision percentage is the exactly
    rounded one: every case is evaluated. *)
Lemma progress_exact_below_40 (k t : nat) :
  t < 40 -> k <= t ->
  progress k t = JS.Number_of_Z (spec_verificationProgress k 0 t).
Proof.
  intros Ht Hk.
  do 40 (destruct t as [|t];
         [ do 41 (destruct k as [|k];
                  [first [exfalso; lia | vm_compute; reflexivity]|]);
           exfalso; lia
         | ]).
  exfalso; lia.
Qed.

Lemma for_all_counts_spec (f : nat -> nat -> bool) (n k t : nat) :
  for_all_counts f n = true -> t < n -> k <= t -> f k t = true.
Proof.
  unfold for_all_counts. intros H Ht Hk.
  rewrite forallb_forall in H.
  specialize (H t). rewrite in_seq in H.
  assert (Hin : forallb (fun reviewed => f reviewed t) (seq 0 (S t)) = true)
    by (apply H; lia).
  rewrite forallb_forall in Hin. apply Hin. rewrite in_seq. lia.
Qed.

Lemma is_tie_odd_multiple (k t : nat) :
  is_tie k t = true -> exists j, 200 * k = (2 * j + 1) * t.
Proof.
  unfold is_tie. intros H. apply andb_true_iff in H. destruct H as [Hm Ho].
  apply Z.eqb_eq in Hm.
  destruct t as [|t]; [rewrite Z.div_0_r in Ho; discriminate|].
  apply Z.odd_spec in Ho. destruct Ho as [j Hj].
  pose proof (Z.div_mod (200 * Z.of_nat k) (Z.of_nat (S t)) ltac:(lia)) as Hd.
  pose proof (Z.div_pos (200 * Z.of_nat k) (Z.of_nat (S t))
                ltac:(lia) ltac:(lia)) as Hq.
  rewrite Hm, Hj in Hd. exists (Z.to_nat j). nia.
Qed.

(** Up to two hundred documents the double-precision percentage is the
    exactly rounded one or, at a tie, the integer below: every case is
    evaluated. *)
Lemma progress_agrees_to_200 : for_all_counts progress_agrees 201 = true.
Proof. vm_compute. reflexivity. Qed.

(** C5, as the tracker has it.  For an application with fewer than forty
    documents the progress is the exactly rounded percentage
    round(100 * (approved + rejected) / total) of the specification, and 0
    without documents; five documents of which three are approved and one
    is rejected give 80.  With up to two hundred documents it is that
    percentage or, where the exact percentage is a tie between two
    integers, possibly the integer below; and with forty documents the
    integer below does occur. *)
Theorem evaluationProgress_below_40 :
  (forall docs : list Document.t,
      List.length docs < 40 ->
      let d := trackerDetails docs in
      evaluationProgress d
      = JS.Number_of_Z (spec_verificationProgress (approvedDocs d) (rejectedDocs d)
                                                  (List.length docs)))
  /\ evaluationProgress (trackerDetails []) = 0%float
  /\ (forall docs : list Document.t,
         List.length docs = 5 ->
         approvedDocs (trackerDetails docs) = 3 ->
         rejectedDocs (trackerDetails docs) = 1 ->
         evaluationProgress (trackerDetails docs) = 80%float)
  /\ (forall docs : list Document.t,
         List.length docs <= 200 ->
         let d := trackerDetails docs in
         let s := spec_verificationProgress (approvedDocs d) (rejectedDocs d)
                                            (List.length docs) in
         evaluationProgress d = JS.Number_of_Z s
         \/ (evaluationProgress d = JS.Number_of_Z (s - 1)
             /\ exists j, 200 * (approvedDocs d + rejectedDocs d)
                          = (2 * j + 1) * List.length docs))
  /\ (exists docs : list Document.t,
         List.length docs = 40
         /\ let d := trackerDetails docs in
            let s := spec_verificationProgress (approvedDocs d) (rejectedDocs d)
                                               (List.length docs) in
            evaluationProgress d = JS.Number_of_Z (s - 1)
            /\ evaluationProgress d <> JS.Number_of_Z s).
Proof.
  split; [|split; [|split; [|split]]].
  - intros docs Hlen d. subst d. unfold trackerDetails.
    cbn [evaluationProgress approvedDocs rejectedDocs].
    rewrite progress_exact_below_40; [| exact Hlen | apply reviewed_le_total].
    unfold spec_verificationProgress. rewrite Nat.add_0_r. reflexivity.
  - reflexivity.
  - unfold trackerDetails. cbn [evaluationProgress approvedDocs rejectedDocs].
    intros docs -> -> ->. vm_compute. reflexivity.
  - intros docs Hlen d s. subst d s. unfold trackerDetails.
    cbn [evaluationProgress approvedDocs rejectedDocs].
    pose proof (reviewed_le_total docs) as Hk.
    set (k := List.length (filter is_doc_approved docs)
              + List.length (filter is_doc_rejected docs)) in *.
    pose proof (for_all_counts_spec progress_agrees 201 k (List.length docs)
                  progress_agrees_to_200 ltac:(lia) Hk) as H.
    unfold progress_agrees in H.
    assert (Es : spec_verificationProgress
                   (List.length (filter is_doc_approved docs))
                   (List.length (filter is_doc_rejected docs)) (List.length docs)
                 = spec_verificationProgress k 0 (List.length docs)).
    { unfold spec_verificationProgress. rewrite Nat.add_0_r. reflexivity. }
    rewrite Es. apply orb_true_iff in H. destruct H as [H|H].
    + left. apply Leibniz.eqb_spec. exact H.
    + right. apply andb_true_iff in H. destruct H as [H Ht]. split.
      * apply Leibniz.eqb_spec. exact H.
      * apply is_tie_odd_multiple. exact Ht.
  - exists Scenario.forty_documents. split; [reflexivity|]. split.
    + vm_compute. reflexivity.
    + vm_compute. intros H.
      apply (f_equal (fun x => PrimFloat.ltb x 57.5%float)) in H.
      vm_compute in H. discriminate.
Qed.

(** The specification's scenario: five documents, three approved, one
    rejected and one pending, give 80. *)
Lemma evaluationProgress_below_40_witness :
  evaluationProgress (trackerDetails Scenario.five_documents) = 80%float
  /\ approvedDocs (trackerDetails Scenario.five_documents) = 3
  /\ rejectedDocs (trackerDetails Scenario.five_documents) = 1
  /\ pendingDocs (trackerDetails Scenario.five_documents) = 1.
Proof.
  split; [|repeat split].
  exact (proj1 (proj2 (proj2 evaluationProgress_below_40))
           Scenario.five_documents eq_refl eq_refl eq_refl).
Defined.

(** C5 fails on the tracker: of forty documents 23 are approved and 17
    pending; 23 / 40 * 100 is 57.499999999999993 in double precision and
    the tracker reports 57, where the specification's formula gives 58,
    in exact arithmetic and in double precision alike. *)
Lemma progress_of_23_in_40 :
  List.length Scenario.forty_documents = 40
  /\ approvedDocs (trackerDetails Scenario.forty_documents) = 23
  /\ rejectedDocs (trackerDetails Scenario.forty_documents) = 0
  /\ evaluationProgress (trackerDetails Scenario.forty_documents) = 57%float
  /\ spec_verificationProgress 23 0 40 = 58%Z
  /\ spec_verificationProgress_js 23 0 40 = 58%float
  /\ evaluationProgress (trackerDetails Scenario.forty_documents)
     <> JS.Number_of_Z (spec_verificationProgress 23 0 40).
Proof.
  split; [|split; [|split; [|split; [|split; [|split]]]]];
    try (vm_compute; reflexivity).
  vm_compute. intros H.
  apply (f_equal (fun x => PrimFloat.ltb x 57.5%float)) in H.
  vm_compute in H. discriminate.
Qed.


(** ** The average processing time *)

Lemma pow10_pos (n : nat) : (0 < Postgres.pow10 n)%Z.
Proof. unfold Postgres.pow10. apply Z.pow_pos_nonneg; lia. Qed.

Lemma pow10_le (m n : nat) : m <= n -> (Postgres.pow10 m <= Postgres.pow10 n)%Z.
Proof. intros H. unfold Postgres.pow10. apply Z.pow_le_mono_r; lia. Qed.

Lemma pow10_add (m n : nat) :
  Postgres.pow10 (m + n) = (Postgres.pow10 m * Postgres.pow10 n)%Z.
Proof.
  unfold Postgres.pow10. rewrite Nat2Z.inj_add. apply Z.pow_add_r; lia.
Qed.

Lemma inject_Z_pos (z : Z) : (0 < z)%Z -> (0 < inject_Z z)%Q.
Proof. intros H. change 0%Q with (inject_Z 0). rewrite <- Zlt_Qlt. exact H. Qed.

Lemma inject_Z_nonzero (z : Z) : (0 < z)%Z -> ~ (inject_Z z == 0)%Q.
Proof. intros H E. apply inject_Z_pos in H. rewrite E in H. apply (Qlt_irrefl 0). exact H. Qed.

(** Rounding a quotient moves it by a half at most. *)
Lemma round_quot_close (n d : Z) :
  (0 < d)%Z ->
  (Qabs (inject_Z (Postgres.round_quot n d) - inject_Z n / inject_Z d) <= 1 # 2)%Q.
Proof.
  intros Hd.
  assert (Hz : (Z.abs (2 * Postgres.round_quot n d * d - 2 * n) <= d)%Z).
  { unfold Postgres.round_quot.
    rewrite (Z.sgn_pos d Hd), (Z.abs_eq d) by lia.
    pose proof (Z.div_mod (2 * Z.abs n + d) (2 * d) ltac:(lia)) as Hdm.
    pose proof (Z.mod_pos_bound (2 * Z.abs n + d) (2 * d) ltac:(lia)) as Hb.
    set (q := ((2 * Z.abs n + d) / (2 * d))%Z) in *.
    set (r := ((2 * Z.abs n + d) mod (2 * d))%Z) in *.
    destruct (Z.sgn_spec n) as [[Hn Hs]|[[Hn Hs]|[Hn Hs]]]; rewrite Hs; nia. }
  pose proof (inject_Z_pos d Hd) as HdQ.
  apply Qabs_Qle_condition.
  apply Z.abs_le in Hz. destruct Hz as [Hlo Hhi].
  rewrite Zle_Qle in Hlo, Hhi.
  rewrite inject_Z_opp in Hlo.
  unfold Z.sub in Hlo, Hhi.
  rewrite inject_Z_plus, inject_Z_opp, !inject_Z_mult in Hlo, Hhi.
  set (R := inject_Z (Postgres.round_quot n d)) in *.
  set (N := inject_Z n) in *. set (D := inject_Z d) in *.
  change (inject_Z 2) with 2%Q in *.
  assert (E : (R - N / D == (2 * R * D + - (2 * N)) / (2 * D))%Q).
  { field. intros E. rewrite E in HdQ. apply (Qlt_irrefl 0). exact HdQ. }
  rewrite E. split.
  - apply Qle_shift_div_l; [lra|]. lra.
  - apply Qle_shift_div_r; [lra|]. lra.
Qed.

(** The selected scale is at least the scale of the dividend. *)
Lemma select_div_scale_bounds (a b : Postgres.numeric) :
  Postgres.dscale a <= 1000 ->
  Postgres.dscale a <= Postgres.select_div_scale a b <= 1000.
Proof.
  intros Ha. unfold Postgres.select_div_scale.
  destruct (Postgres.weight_and_first_digit a) as [w1 f1].
  destruct (Postgres.weight_and_first_digit b) as [w2 f2].
  lia.
Qed.

(** A quotient is off by half a unit of its scale at most. *)
Lemma div_close (a b : Postgres.numeric) :
  (0 < Postgres.unscaled b)%Z ->
  (Qabs (Postgres.value (Postgres.div a b)
         - Postgres.value a / Postgres.value b)
   <= (1 # 2) / inject_Z (Postgres.pow10 (Postgres.select_div_scale a b)))%Q.
Proof.
  intros Hb. unfold Postgres.div, Postgres.value.
  cbn [Postgres.unscaled Postgres.dscale].
  set (rs := Postgres.select_div_scale a b).
  set (n := (Postgres.unscaled a * Postgres.pow10 (Postgres.dscale b)
             * Postgres.pow10 rs)%Z).
  set (d := (Postgres.unscaled b * Postgres.pow10 (Postgres.dscale a))%Z).
  pose proof (pow10_pos rs) as Hrs.
  pose proof (pow10_pos (Postgres.dscale a)) as Hsa.
  pose proof (pow10_pos (Postgres.dscale b)) as Hsb.
  assert (Hd : (0 < d)%Z) by (subst d; nia).
  pose proof (round_quot_close n d Hd) as H.
  apply Qabs_Qle_condition in H. destruct H as [Hlo Hhi].
  pose proof (inject_Z_pos _ Hrs) as HP.
  pose proof (inject_Z_nonzero _ Hrs) as HP0.
  pose proof (inject_Z_nonzero _ Hsa) as HA0.
  pose proof (inject_Z_nonzero _ Hsb) as HB0.
  pose proof (inject_Z_nonzero _ Hb) as HU0.
  assert (E : (inject_Z (Postgres.round_quot n d) / inject_Z (Postgres.pow10 rs)
               - inject_Z (Postgres.unscaled a)
                 / inject_Z (Postgres.pow10 (Postgres.dscale a))
                 / (inject_Z (Postgres.unscaled b)
                    / inject_Z (Postgres.pow10 (Postgres.dscale b)))
               == (inject_Z (Postgres.round_quot n d) - inject_Z n / inject_Z d)
                  / inject_Z (Postgres.pow10 rs))%Q).
  { subst n d. rewrite !inject_Z_mult. field. repeat split; assumption. }
  rewrite E. apply Qabs_Qle_condition. split.
  - apply Qle_shift_div_l; [exact HP|].
    setoid_replace (- ((1 # 2) / inject_Z (Postgres.pow10 rs))
                    * inject_Z (Postgres.pow10 rs))%Q with (- (1 # 2))%Q
      by (field; exact HP0).
    exact Hlo.
  - apply Qle_shift_div_r; [exact HP|].
    setoid_replace ((1 # 2) / inject_Z (Postgres.pow10 rs)
                    * inject_Z (Postgres.pow10 rs))%Q with (1 # 2)%Q
      by (field; exact HP0).
    exact Hhi.
Qed.

(** With six digits or more after the point, that is half a millionth. *)
Lemma div_close_6 (a b : Postgres.numeric) :
  (0 < Postgres.unscaled b)%Z ->
  6 <= Postgres.dscale a <= 1000 ->
  (Qabs (Postgres.value (Postgres.div a b)
         - Postgres.value a / Postgres.value b) <= 1 # 2000000)%Q.
Proof.
  intros Hb [H6 H1000].
  eapply Qle_trans; [apply div_close; exact Hb|].
  pose proof (select_div_scale_bounds a b H1000) as [Hs _].
  pose proof (pow10_le 6 (Postgres.select_div_scale a b) ltac:(lia)) as Hp.
  pose proof (pow10_pos (Postgres.select_div_scale a b)) as Hpos.
  apply Qle_shift_div_r; [apply inject_Z_pos; exact Hpos|].
  rewrite Zle_Qle in Hp. change (inject_Z (Postgres.pow10 6)) with 1000000%Q in Hp.
  lra.
Qed.

Lemma value_of_int (z : Z) : (Postgres.value (Postgres.of_int z) == inject_Z z)%Q.
Proof.
  unfold Postgres.value, Postgres.of_int. cbn [Postgres.unscaled Postgres.dscale].
  change (Postgres.pow10 0) with 1%Z. change (inject_Z 1) with 1%Q. field.
Qed.

Lemma value_add (a b : Postgres.numeric) :
  (Postgres.value (Postgres.add a b) == Postgres.value a + Postgres.value b)%Q.
Proof.
  unfold Postgres.add, Postgres.value. cbn [Postgres.unscaled Postgres.dscale].
  set (s := Nat.max (Postgres.dscale a) (Postgres.dscale b)).
  assert (Ea : Postgres.pow10 s
               = (Postgres.pow10 (s - Postgres.dscale a)
                  * Postgres.pow10 (Postgres.dscale a))%Z)
    by (rewrite <- pow10_add; f_equal; lia).
  assert (Eb : Postgres.pow10 s
               = (Postgres.pow10 (s - Postgres.dscale b)
                  * Postgres.pow10 (Postgres.dscale b))%Z)
    by (rewrite <- pow10_add; f_equal; lia).
  pose proof (inject_Z_nonzero _ (pow10_pos (s - Postgres.dscale a))).
  pose proof (inject_Z_nonzero _ (pow10_pos (s - Postgres.dscale b))).
  pose proof (inject_Z_nonzero _ (pow10_pos (Postgres.dscale a))).
  pose proof (inject_Z_nonzero _ (pow10_pos (Postgres.dscale b))).
  pose proof (inject_Z_nonzero _ (pow10_pos s)).
  rewrite inject_Z_plus, !inject_Z_mult.
  transitivity
    (inject_Z (Postgres.unscaled a) * inject_Z (Postgres.pow10 (s - Postgres.dscale a))
     / inject_Z (Postgres.pow10 s)
     + inject_Z (Postgres.unscaled b) * inject_Z (Postgres.pow10 (s - Postgres.dscale b))
       / inject_Z (Postgres.pow10 s))%Q.
  { field. assumption. }
  assert (Ta : (inject_Z (Postgres.unscaled a)
                * inject_Z (Postgres.pow10 (s - Postgres.dscale a))
                / inject_Z (Postgres.pow10 s)
                == inject_Z (Postgres.unscaled a)
                   / inject_Z (Postgres.pow10 (Postgres.dscale a)))%Q)
    by (rewrite Ea, inject_Z_mult; field; split; assumption).
  assert (Tb : (inject_Z (Postgres.unscaled b)
                * inject_Z (Postgres.pow10 (s - Postgres.dscale b))
                / inject_Z (Postgres.pow10 s)
                == inject_Z (Postgres.unscaled b)
                   / inject_Z (Postgres.pow10 (Postgres.dscale b)))%Q)
    by (rewrite Eb, inject_Z_mult; field; split; assumption).
  rewrite Ta, Tb. reflexivity.
Qed.

Lemma SUM_value (xs : list Postgres.numeric) :
  (Postgres.value (Postgres.SUM xs)
   == fold_right Qplus 0 (map Postgres.value xs))%Q.
Proof.
  induction xs as [|x xs IH]; simpl.
  - apply value_of_int.
  - rewrite value_add, IH. reflexivity.
Qed.

Lemma SUM_dscale (lo hi : nat) (xs : list Postgres.numeric) :
  (forall x, In x xs -> lo <= Postgres.dscale x <= hi) -> xs <> [] ->
  lo <= Postgres.dscale (Postgres.SUM xs) <= hi.
Proof.
  induction xs as [|x xs IH]; intros H Hne; [contradiction|].
  simpl. pose proof (H x (or_introl eq_refl)) as Hx.
  destruct xs as [|y ys].
  - simpl. lia.
  - assert (Hys : lo <= Postgres.dscale (Postgres.SUM (y :: ys)) <= hi).
    { apply IH; [|discriminate]. intros z Hz. apply H. right. exact Hz. }
    lia.
Qed.

Lemma day_row_dscale (i : Z) :
  6 <= Postgres.dscale (Postgres.div (Postgres.EXTRACT_EPOCH i)
                                     (Postgres.of_int 86400)) <= 1000.
Proof.
  unfold Postgres.div. cbn [Postgres.dscale].
  apply (select_div_scale_bounds (Postgres.EXTRACT_EPOCH i)). simpl. lia.
Qed.

Lemma day_row_close (i : Z) :
  (Qabs (Postgres.value (Postgres.div (Postgres.EXTRACT_EPOCH i)
                                      (Postgres.of_int 86400))
         - inject_Z i / inject_Z day) <= 1 # 2000000)%Q.
Proof.
  assert (E : (inject_Z i / inject_Z day
               == Postgres.value (Postgres.EXTRACT_EPOCH i)
                  / Postgres.value (Postgres.of_int 86400))%Q).
  { unfold Postgres.value, Postgres.EXTRACT_EPOCH, Postgres.of_int, day.
    cbn [Postgres.unscaled Postgres.dscale].
    change (Postgres.pow10 6) with 1000000%Z. change (Postgres.pow10 0) with 1%Z.
    rewrite inject_Z_mult. field. }
  rewrite E. apply div_close_6; simpl; lia.
Qed.

Lemma day_rows_close (intervals : list Z) :
  let n := inject_Z (Z.of_nat (List.length intervals)) in
  (- (n * (1 # 2000000))
   <= fold_right Qplus 0 (map Postgres.value (day_rows intervals))
      - inject_Z (fold_right Z.add 0%Z intervals) / inject_Z day
   <= n * (1 # 2000000))%Q.
Proof.
  induction intervals as [|i l IH]; cbn zeta.
  - simpl. split; vm_compute; discriminate.
  - cbn [day_rows map fold_right List.length] in *.
    rewrite Nat2Z.inj_succ. unfold Z.succ. rewrite !inject_Z_plus.
    change (inject_Z 1) with 1%Q.
    pose proof (day_row_close i) as Hi. apply Qabs_Qle_condition in Hi.
    assert (E : (inject_Z i / inject_Z day + inject_Z (fold_right Z.add 0%Z l)
                                             / inject_Z day
                 == (inject_Z i + inject_Z (fold_right Z.add 0%Z l))
                    / inject_Z day)%Q) by (field; discriminate).
    rewrite <- E. fold (day_rows l) in *. lra.
Qed.

(** The query's average is within a millionth of the mean in days. *)
Lemma avg_close (intervals : list Z) :
  intervals <> [] ->
  exists avg,
    Postgres.AVG (day_rows intervals) = Some avg
    /\ (Qabs (Postgres.value avg - mean_days intervals) <= 1 # 1000000)%Q.
Proof.
  intros Hne.
  assert (Hlen : (0 < Z.of_nat (List.length intervals))%Z)
    by (destruct intervals; [contradiction | simpl; lia]).
  assert (Hrows : day_rows intervals <> [])
    by (destruct intervals; [contradiction | discriminate]).
  unfold Postgres.AVG.
  destruct (day_rows intervals) as [|r rs] eqn:Er; [contradiction|].
  rewrite <- Er. clear Hrows.
  eexists. split; [reflexivity|].
  assert (Hlen' : List.length (day_rows intervals) = List.length intervals)
    by apply length_map.
  rewrite Hlen'.
  set (n := Z.of_nat (List.length intervals)) in *.
  pose proof (div_close_6 (Postgres.SUM (day_rows intervals)) (Postgres.of_int n)
                Hlen) as Hd.
  assert (Hs : 6 <= Postgres.dscale (Postgres.SUM (day_rows intervals)) <= 1000).
  { apply SUM_dscale; [|rewrite Er; discriminate].
    intros x Hx. unfold day_rows in Hx. apply in_map_iff in Hx.
    destruct Hx as (i & <- & _). apply day_row_dscale. }
  specialize (Hd Hs). apply Qabs_Qle_condition in Hd.
  rewrite value_of_int, SUM_value in Hd.
  pose proof (day_rows_close intervals) as Hr. cbn zeta in Hr. fold n in Hr.
  pose proof (inject_Z_pos n Hlen) as Hn.
  pose proof (inject_Z_nonzero n Hlen) as Hn0.
  set (R := fold_right Qplus 0%Q (map Postgres.value (day_rows intervals))) in *.
  set (E := (inject_Z (fold_right Z.add 0%Z intervals) / inject_Z day)%Q) in *.
  assert (Hmean : (mean_days intervals == E / inject_Z n)%Q).
  { unfold mean_days, E. fold n. rewrite inject_Z_mult. field.
    split; [discriminate | exact Hn0]. }
  rewrite Hmean.
  assert (Hq : (- (1 # 2000000) <= R / inject_Z n - E / inject_Z n
                <= 1 # 2000000)%Q).
  { assert (Eq : (R / inject_Z n - E / inject_Z n == (R - E) / inject_Z n)%Q)
      by (field; exact Hn0).
    rewrite Eq. split.
    - apply Qle_shift_div_l; [exact Hn|]. lra.
    - apply Qle_shift_div_r; [exact Hn|]. lra. }
  apply Qabs_Qle_condition. split; lra.
Qed.

Lemma cast_int_close (x : Postgres.numeric) :
  (Qabs (inject_Z (Postgres.cast_int x) - Postgres.value x) <= 1 # 2)%Q.
Proof.
  unfold Postgres.cast_int, Postgres.value. apply round_quot_close.
  apply pow10_pos.
Qed.

(** The statistic is within a half and a millionth of the mean of the
    intervals in days. *)
Lemma avgDays_close (db : Store) :
  processing_intervals (applications db) <> [] ->
  (Qabs (inject_Z (avgDays db)
         - mean_days (processing_intervals (applications db)))
   <= (1 # 2) + (1 # 1000000))%Q.
Proof.
  intros Hne. destruct (avg_close _ Hne) as (avg & Havg & Hclose).
  unfold avgDays. rewrite Havg. cbn [Postgres.COALESCE].
  pose proof (cast_int_close avg) as Hc.
  apply Qabs_Qle_condition in Hc. apply Qabs_Qle_condition in Hclose.
  apply Qabs_Qle_condition. split; lra.
Qed.

(** An integer within a half and a millionth of a number is its floor or
    the integer above. *)
Lemma near_floor (r : Z) (m : Q) :
  (Qabs (inject_Z r - m) <= (1 # 2) + (1 # 1000000))%Q ->
  (Qfloor m <= r <= Qfloor m + 1)%Z.
Proof.
  intros Hn. apply Qabs_Qle_condition in Hn.
  pose proof (Qfloor_le m) as Hle. pose proof (Qlt_floor m) as Hlt.
  rewrite inject_Z_plus in Hlt. change (inject_Z 1) with 1%Q in Hlt.
  split.
  - destruct (Z_le_gt_dec (Qfloor m) r) as [H|H]; [exact H|].
    exfalso. assert (H' : (r + 1 <= Qfloor m)%Z) by lia.
    rewrite Zle_Qle, inject_Z_plus in H'.
    change (inject_Z 1) with 1%Q in H'. lra.
  - destruct (Z_le_gt_dec r (Qfloor m + 1)) as [H|H]; [exact H|].
    exfalso. assert (H' : (Qfloor m + 2 <= r)%Z) by lia.
    rewrite Zle_Qle, inject_Z_plus in H'.
    change (inject_Z 2) with 2%Q in H'. lra.
Qed.

(** An integer within a half and a millionth of a number that is nearer
    than a half less a millionth to the integer [k] is [k]. *)
Lemma near_integer (r k : Z) (m : Q) :
  (Qabs (inject_Z r - m) <= (1 # 2) + (1 # 1000000))%Q ->
  (inject_Z k - (1 # 2) + (1 # 1000000) < m)%Q ->
  (m < inject_Z k + (1 # 2) - (1 # 1000000))%Q ->
  r = k.
Proof.
  intros Hn Hlo Hhi. apply Qabs_Qle_condition in Hn.
  destruct (Z_lt_le_dec r k) as [H|H].
  - exfalso. assert (H' : (r + 1 <= k)%Z) by lia.
    rewrite Zle_Qle, inject_Z_plus in H'.
    change (inject_Z 1) with 1%Q in H'. lra.
  - destruct (Z_le_gt_dec r k) as [H1|H1]; [lia|].
    exfalso. assert (H' : (k + 1 <= r)%Z) by lia.
    rewrite Zle_Qle, inject_Z_plus in H'.
    change (inject_Z 1) with 1%Q in H'. lra.
Qed.

(** C9, as the query has it: the statistic is the average, in the decimal
    arithmetic of the database, of [updatedAt - submittedAt] in days over
    the approved applications that carry a submission timestamp, cast to
    an integer by rounding to the nearest, and 0 without such an
    application.  It is within a half and a millionth of the exact mean of
    the intervals in days, so it is the floor of that mean or the integer
    above; and it is the integer nearest to the mean wherever the mean is
    more than a millionth away from a tie. *)
Theorem avgDays_rounds_to_nearest (db : Store) :
  let intervals := processing_intervals (applications db) in
  (intervals = [] -> avgDays db = 0%Z)
  /\ (intervals <> [] ->
      (Qabs (inject_Z (avgDays db) - mean_days intervals)
       <= (1 # 2) + (1 # 1000000))%Q)
  /\ (spec_avgProcessingDays db <= avgDays db <= spec_avgProcessingDays db + 1)%Z
  /\ (forall k : Z,
         intervals <> [] ->
         (inject_Z k - (1 # 2) + (1 # 1000000) < mean_days intervals)%Q ->
         (mean_days intervals < inject_Z k + (1 # 2) - (1 # 1000000))%Q ->
         avgDays db = k).
Proof.
  intros intervals. subst intervals. split; [|split; [|split]].
  - intros E. unfold avgDays. rewrite E. reflexivity.
  - apply avgDays_close.
  - unfold spec_avgProcessingDays.
    destruct (processing_intervals (applications db)) as [|i l] eqn:E.
    + unfold avgDays. rewrite E. vm_compute. split; discriminate.
    + rewrite <- E. apply near_floor. apply avgDays_close.
      rewrite E. discriminate.
  - intros k Hne Hlo Hhi.
    exact (near_integer _ _ _ (avgDays_close db Hne) Hlo Hhi).
Qed.

(** The statistic of a store whose only approved application took a day
    and three quarters: 2, the integer nearest to the mean. *)
Lemma avgDays_rounds_to_nearest_witness :
  (Qabs (inject_Z (avgDays Scenario.one_approved)
         - mean_days (processing_intervals (applications Scenario.one_approved)))
   <= (1 # 2) + (1 # 1000000))%Q
  /\ (spec_avgProcessingDays Scenario.one_approved
      <= avgDays Scenario.one_approved
      <= spec_avgProcessingDays Scenario.one_approved + 1)%Z
  /\ avgDays Scenario.one_approved = 2%Z.
Proof.
  pose proof (avgDays_rounds_to_nearest Scenario.one_approved)
    as [_ [Hn [Hf Hk]]].
  split; [apply Hn; vm_compute; discriminate|].
  split; [exact Hf|].
  apply Hk; [vm_compute; discriminate | vm_compute; reflexivity
             | vm_compute; reflexivity].
Defined.

(** C9 fails on the query: one application approved 1.75 days after its
    submission gives 2 days, where the floor of the mean is 1. *)
Lemma avgDays_is_not_floored :
  processing_intervals (applications Scenario.one_approved)
  = [(151200 * 1000000)%Z]
  /\ avgDays Scenario.one_approved = 2%Z
  /\ spec_avgProcessingDays Scenario.one_approved = 1%Z.
Proof.
  split; [|split]; vm_compute; reflexivity.
Qed.

(** * Further properties of the routes *)

(** ** Refused requests *)

Ltac route_cases :=
  unfold createApplication, submitApplication, setStatus, assignEvaluator,
    recordEvaluation, guarded, includes; simpl existsb;
  repeat match goal with
         | |- context [match ?x with _ => _ end] =>
             lazymatch x with
             | context [match _ with _ => _ end] => fail
             | _ => destruct x eqn:?
             end
         end.

(** X1: a request one of the five workflow routes answers with an error
    (400, 401, 403, 404 or 500) leaves the store as it was. *)
Theorem refused_request_changes_nothing
        (sc : Constraints) (db : Store) (op : Operation) :
  answer sc db op <> 200 -> step sc db op = db.
Proof.
  destruct op; unfold answer, step; route_cases; cbn [fst snd status_code];
    intros H; try reflexivity; contradiction H; reflexivity.
Qed.

(** A wrong-role request of the concrete run: the evaluator submits. *)
Lemma refused_request_changes_nothing_witness :
  step Scenario.sc Scenario.created
       (Submit Scenario.evaluator Scenario.number 2000%Z) = Scenario.created.
Proof.
  apply refused_request_changes_nothing. vm_compute. discriminate.
Defined.

(** X2: a workflow route answers 401 exactly when the session carries no
    user, and 403 exactly when it carries a user whose role is not the
    role of the route. *)
Theorem answer_401_403 (sc : Constraints) (db : Store) (op : Operation) :
  (answer sc db op = 401 <-> userId (operation_session op) = None)
  /\ (answer sc db op = 403
      <-> userId (operation_session op) <> None
          /\ userRole (operation_session op) <> Some (operation_role op)).
Proof.
  destruct op; unfold answer, operation_session, operation_role; route_cases;
    cbn [fst snd status_code];
    repeat match goal with
           | H : (_ =? _)%string = true |- _ => apply String.eqb_eq in H; subst
           | H : (_ =? _)%string = false |- _ => apply String.eqb_neq in H
           | H : (_ || _)%bool = _ |- _ => rewrite orb_false_r in H
           end;
    (split; split; [intros H | intros H | intros H | intros [H1 H2]]);
    try discriminate; try congruence;
    try (split; congruence);
    try (exfalso; apply H2; reflexivity).
Qed.

(** ** Creation, and what follows it *)

Lemma createApplication_created (sc : Constraints) (sess : Session) (uid : Id)
      (b : CreateApplicationBody) (appNumber : string) (now : Timestamp)
      (db : Store) (institution : Institution.t) :
  userId sess = Some uid -> userRole sess = Some "institution" ->
  Db.findFirst (fun i => Institution.userId i =? uid) (institutions db)
  = Some institution ->
  unique_applicationNumber sc
  && existsb (fun a => String.eqb (Application.applicationNumber a) appNumber)
             (applications db) = false ->
  let a := created_application db institution b appNumber now in
  let db' := snd (createApplication sc sess (Some b) appNumber now db) in
  fst (createApplication sc sess (Some b) appNumber now db) = Json a
  /\ applications db' = (applications db ++ [a])%list
  /\ timeline db' (nextId db)
     = (timeline db (nextId db)
        ++ map (fun '(i, (title, description, status)) =>
                  TimelineStage.mk i (nextId db) title description status
                                   None None now)
               (combine (seq (S (nextId db)) 6) timelineStagesData))%list
  /\ users db' = users db /\ institutions db' = institutions db
  /\ documents db' = documents db
  /\ evaluatorAssignments db' = evaluatorAssignments db
  /\ evaluations db' = evaluations db.
Proof.
  intros Hu Hr Hi Hfree a db'. subst a db'. unfold createApplication.
  rewrite (guarded_authorised _ _ uid "institution") by (assumption || reflexivity).
  rewrite Hi, Hfree. cbn [fst snd applications users institutions documents
                          evaluatorAssignments evaluations].
  repeat split.
  unfold timeline, Db.findMany, Db.insert. cbn [timelineStages].
  rewrite filter_app. f_equal. simpl. rewrite Nat.eqb_refl. reflexivity.
Qed.

Lemma find_app_new {A} (p : A -> bool) (l : list A) (x : A) :
  (forall y, In y l -> p y = false) -> p x = true ->
  find p (l ++ [x]) = Some x.
Proof.
  intros Hl Hx. induction l as [|y l IH]; simpl.
  - rewrite Hx. reflexivity.
  - rewrite (Hl y) by (left; reflexivity). apply IH.
    intros z Hz. apply Hl. right. exact Hz.
Qed.


(** X3: an application created under a number no application carries is
    what GET /api/applications/:id then shows for that number, to every
    signed-in user: a draft without submission date, owned by the caller's
    institution, with the six stages of a new timeline, the one titled
    Application Submitted current and the others pending. *)
Theorem create_then_get
        (sc : Constraints) (sess reader : Session) (uid rid : Id)
        (b : CreateApplicationBody) (appNumber : string) (now : Timestamp)
        (w : World) (institution : Institution.t) :
  userId sess = Some uid -> userRole sess = Some "institution" ->
  userId reader = Some rid ->
  Db.findFirst (fun i => Institution.userId i =? uid) (institutions (store w))
  = Some institution ->
  existsb (fun a => String.eqb (Application.applicationNumber a) appNumber)
          (applications (store w)) = false ->
  stages_reference_known_ids (store w) ->
  let db' := snd (createApplication sc sess (Some b) appNumber now (store w)) in
  exists page,
    fst (getApplication reader appNumber (mkWorld db' (messages w))) = Json page
    /\ page_application page
       = created_application (store w) institution b appNumber now
    /\ Application.status (page_application page) = ApplicationStatus.draft
    /\ Application.submittedAt (page_application page) = None
    /\ Application.institutionId (page_application page)
       = Institution.id institution
    /\ Permutation (map stage_view (page_timeline page)) created_view.
Proof.
  intros Hu Hr Hrd Hi Hfree Hknown db'.
  assert (Hfree' : unique_applicationNumber sc
                   && existsb (fun a => String.eqb (Application.applicationNumber a)
                                                   appNumber)
                              (applications (store w)) = false)
    by (rewrite Hfree; apply andb_false_r).
  destruct (createApplication_created sc sess uid b appNumber now (store w)
              institution Hu Hr Hi Hfree')
    as (_ & Happs & Htl & _).
  fold db' in Happs, Htl.
  unfold getApplication, authenticated. rewrite Hrd. cbn [store].
  unfold Db.findFirst. rewrite Happs.
  rewrite find_app_new;
    [| apply existsb_false_find; exact Hfree | simpl; apply String.eqb_refl].
  eexists. split; [reflexivity|]. cbn [page_application page_timeline fst].
  repeat split.
  cbn [created_application Application.id]. rewrite Htl.
  unfold timeline, Db.findMany. rewrite filter_none; [apply Permutation_refl|].
  intros s Hs. apply Hknown in Hs. apply Nat.eqb_neq. lia.
Qed.

Lemma create_then_get_witness :
  exists page,
    fst (getApplication Scenario.admin Scenario.number
           (mkWorld Scenario.created [])) = Json page
    /\ Application.status (page_application page) = ApplicationStatus.draft
    /\ Permutation (map stage_view (page_timeline page)) created_view.
Proof.
  destruct (create_then_get Scenario.sc Scenario.institution Scenario.admin 1 2
              Scenario.body Scenario.number 1000%Z
              (mkWorld Scenario.registered [])
              (Institution.mk 10 1 "Delhi Institute of Technology"
                 "123 Tech Street, New Delhi" "Delhi")
              eq_refl eq_refl eq_refl eq_refl eq_refl
              (fun s (H : In s []) => match H with end))
    as (page & Hp & _ & Hs & _ & _ & Ht).
  exists page. split; [exact Hp | split; assumption].
Defined.

Lemma known_ids_find_new (db : Store) (a : Application.t) :
  applications_have_known_ids db -> Application.id a = nextId db ->
  find (fun x => Application.id x =? nextId db) (applications db ++ [a]) = Some a.
Proof.
  intros Hknown Ha. apply find_app_new.
  - intros y Hy. apply Hknown in Hy. apply Nat.eqb_neq. lia.
  - rewrite Ha. apply Nat.eqb_refl.
Qed.

(** X4: creating an application under a number no application carries and
    then submitting that number, as the application form does, leaves the
    new application submitted, stamped with the time of the submission,
    its stage Application Submitted completed, its stage Initial Scrutiny
    current and the other four pending. *)
Theorem create_then_submit
        (sc : Constraints) (sess : Session) (uid : Id)
        (b : CreateApplicationBody) (appNumber : string) (now now' : Timestamp)
        (db : Store) (institution : Institution.t) :
  userId sess = Some uid -> userRole sess = Some "institution" ->
  Db.findFirst (fun i => Institution.userId i =? uid) (institutions db)
  = Some institution ->
  existsb (fun a => String.eqb (Application.applicationNumber a) appNumber)
          (applications db) = false ->
  stages_reference_known_ids db -> applications_have_known_ids db ->
  let db1 := snd (createApplication sc sess (Some b) appNumber now db) in
  let db2 := snd (submitApplication sess appNumber now' db1) in
  lookup_application db2 (nextId db)
  = Some (Application.set_updatedAt now'
            (Application.set_submittedAt (Some now')
               (Application.set_status ApplicationStatus.submitted
                  (created_application db institution b appNumber now))))
  /\ Permutation (timeline_view db2 (nextId db)) submitted_view.
Proof.
  intros Hu Hr Hi Hfree Hstages Hknown db1 db2.
  assert (Hfree' : unique_applicationNumber sc
                   && existsb (fun a => String.eqb (Application.applicationNumber a)
                                                   appNumber)
                              (applications db) = false)
    by (rewrite Hfree; apply andb_false_r).
  destruct (createApplication_created sc sess uid b appNumber now db
              institution Hu Hr Hi Hfree')
    as (_ & Happs & Htl & _).
  fold db1 in Happs, Htl.
  set (a := created_application db institution b appNumber now) in *.
  assert (Hfind : Db.findFirst
                    (fun x => String.eqb (Application.applicationNumber x) appNumber)
                    (applications db1) = Some a).
  { unfold Db.findFirst. rewrite Happs. apply find_app_new.
    - apply existsb_false_find. exact Hfree.
    - apply String.eqb_refl. }
  subst db2. rewrite (submitApplication_found sess uid appNumber now' db1 a Hu Hr Hfind).
  cbn [snd]. split.
  - unfold lookup_application, Db.findFirst. cbn [applications].
    rewrite find_update by reflexivity. rewrite Happs.
    change (Application.id a) with (nextId db).
    rewrite (known_ids_find_new db a Hknown eq_refl). simpl.
    rewrite Nat.eqb_refl. reflexivity.
  - unfold timeline_view, timeline, Db.findMany in *. cbn [timelineStages].
    rewrite !timeline_update by reflexivity. rewrite Htl.
    rewrite filter_none.
    2:{ intros s Hs. apply Hstages in Hs. apply Nat.eqb_neq. lia. }
    change (Application.id a) with (nextId db).
    simpl. rewrite !Nat.eqb_refl. apply Permutation_refl.
Qed.

Lemma create_then_submit_witness :
  Permutation (timeline_view Scenario.submitted 100) submitted_view.
Proof.
  refine (proj2 (create_then_submit Scenario.sc Scenario.institution 1
                   Scenario.body Scenario.number 1000%Z 2000%Z Scenario.registered
                   (Institution.mk 10 1 "Delhi Institute of Technology"
                      "123 Tech Street, New Delhi" "Delhi")
                   eq_refl eq_refl eq_refl eq_refl _ _));
    intros x Hx; simpl in Hx; contradiction.
Defined.


(** ** What the workflow routes leave alone *)

Lemma step_frame (sc : Constraints) (db : Store) (op : Operation) :
  users (step sc db op) = users db
  /\ institutions (step sc db op) = institutions db
  /\ documents (step sc db op) = documents db.
Proof.
  destruct op; unfold step; route_cases; cbn [snd users institutions documents];
    repeat split.
Qed.

(** X6: no sequence of workflow operations inserts, changes or removes a
    user, an institution or a document; the tracker's figures of an
    application are the same after it as before. *)
Theorem workflow_leaves_documents
        (sc : Constraints) (ops : list Operation) (db : Store) :
  users (run sc ops db) = users db
  /\ institutions (run sc ops db) = institutions db
  /\ documents (run sc ops db) = documents db
  /\ forall app, tracker (run sc ops db) app = tracker db app.
Proof.
  assert (H : users (run sc ops db) = users db
              /\ institutions (run sc ops db) = institutions db
              /\ documents (run sc ops db) = documents db).
  { revert db. induction ops as [|op ops IH]; intros db; simpl; [repeat split|].
    destruct (IH (step sc db op)) as (Hu & Hi & Hd).
    destruct (step_frame sc db op) as (Hu' & Hi' & Hd').
    repeat split; congruence. }
  destruct H as (Hu & Hi & Hd). repeat split; try assumption.
  intros app. unfold tracker. rewrite Hd. reflexivity.
Qed.


(** ** Assignments and evaluations *)

(** X7: recording an evaluation changes no assignment but the one it
    names: of two assignments of the same evaluator to the same application,
    completing one leaves the completion timestamp of the other as it was. *)
Theorem recordEvaluation_leaves_other_assignments
        (sc : Constraints) (sess : Session) (b : SubmitEvaluationBody)
        (now : Timestamp) (db : Store) (j : Id) :
  eval_assignmentId b <> j ->
  lookup_assignment (snd (recordEvaluation sc sess (Some b) now db)) j
  = lookup_assignment db j.
Proof.
  intros Hj. unfold recordEvaluation.
  apply (guarded_store (Some ["evaluator"]) sess _ db
           (fun d => lookup_assignment d j = lookup_assignment db j));
    [reflexivity|].
  intros uid. destruct (_ && _); [reflexivity|].
  cbn [snd]. unfold lookup_assignment, Db.findFirst, completeAssignment.
  cbn [evaluatorAssignments]. rewrite find_update by reflexivity.
  destruct (find _ (evaluatorAssignments db)) as [x|] eqn:Hx; [|reflexivity].
  simpl. apply find_some in Hx. destruct Hx as [_ Hx]. apply Nat.eqb_eq in Hx.
  assert (Hne : (EvaluatorAssignment.id x =? eval_assignmentId b) = false)
    by (apply Nat.eqb_neq; lia).
  rewrite Hne. reflexivity.
Qed.

(** X8: POST /api/evaluations does not ask whether the assignment is
    addressed to the caller, whether it is still open or whether it belongs
    to the application named in the body: any evaluator with a user row
    completes any existing assignment, and the evaluation is stored under
    the caller's identifier. *)
Theorem recordEvaluation_by_any_evaluator
        (sc : Constraints) (sess : Session) (uid : Id)
        (b : SubmitEvaluationBody) (now : Timestamp) (db : Store)
        (A : EvaluatorAssignment.t) :
  userId sess = Some uid -> userRole sess = Some "evaluator" ->
  has_user db uid = true ->
  has_application db (eval_applicationId b) = true ->
  lookup_assignment db (eval_assignmentId b) = Some A ->
  let db' := snd (recordEvaluation sc sess (Some b) now db) in
  fst (recordEvaluation sc sess (Some b) now db)
  = Json (Evaluation.mk (nextId db) (eval_assignmentId b) (eval_applicationId b)
            uid (eval_score b) (eval_comments b) (eval_recommendation b)
            (eval_siteVisitNotes b))
  /\ lookup_assignment db' (eval_assignmentId b)
     = Some (EvaluatorAssignment.mk (EvaluatorAssignment.id A)
               (EvaluatorAssignment.applicationId A)
               (EvaluatorAssignment.evaluatorId A)
               (EvaluatorAssignment.priority A)
               (EvaluatorAssignment.deadline A) (Some now)).
Proof.
  intros Hu Hr Huser Happ HA db'.
  assert (Hfk : foreign_keys sc
                && negb (has_assignment db (eval_assignmentId b)
                         && has_application db (eval_applicationId b)
                         && has_user db uid) = false).
  { unfold has_assignment. rewrite (find_existsb _ _ _ HA), Happ, Huser.
    apply andb_false_r. }
  subst db'. rewrite (recordEvaluation_accepted sc sess uid b now db Hu Hr Hfk).
  cbn [fst snd]. split; [reflexivity|].
  unfold lookup_assignment, Db.findFirst, completeAssignment in *.
  cbn [evaluatorAssignments]. rewrite find_update by reflexivity.
  rewrite HA. simpl. apply find_some in HA. destruct HA as [_ HA].
  rewrite HA. reflexivity.
Qed.

Lemma recordEvaluation_leaves_other_assignments_witness :
  lookup_assignment
    (snd (recordEvaluation Scenario.sc Scenario.evaluator
            (Some Scenario.approve) 4000%Z Scenario2.assigned_twice)) 108
  = Some (EvaluatorAssignment.mk 108 100 3 Priority.high None None).
Proof.
  refine (eq_trans
            (recordEvaluation_leaves_other_assignments Scenario.sc
               Scenario.evaluator Scenario.approve 4000%Z
               Scenario2.assigned_twice 108 _) _).
  - vm_compute. discriminate.
  - vm_compute. reflexivity.
Defined.

Lemma recordEvaluation_by_any_evaluator_witness :
  lookup_assignment
    (snd (recordEvaluation Scenario.sc Scenario2.other_evaluator
            (Some Scenario2.intrusion) 4000%Z Scenario2.assigned_twice)) 107
  = Some (EvaluatorAssignment.mk 107 100 3 Priority.high None (Some 4000%Z)).
Proof.
  refine (proj2 (recordEvaluation_by_any_evaluator Scenario.sc
                   Scenario2.other_evaluator 4 Scenario2.intrusion 4000%Z
                   Scenario2.assigned_twice
                   (EvaluatorAssignment.mk 107 100 3 Priority.high None None)
                   _ _ _ _ _)); vm_compute; reflexivity.
Defined.





(** ** Submission, on any timeline *)

(** X10: a submission touches the application it finds under the number
    and the stages of that application only: every other application and
    its timeline, the assignments and the evaluations are as before. *)
Theorem submit_leaves_other_applications
        (sess : Session) (uid : Id) (id : string) (now : Timestamp)
        (db : Store) (a : Application.t) :
  userId sess = Some uid -> userRole sess = Some "institution" ->
  Db.findFirst (fun x => String.eqb (Application.applicationNumber x) id)
               (applications db) = Some a ->
  let db' := snd (submitApplication sess id now db) in
  (forall i, i <> Application.id a ->
             lookup_application db' i = lookup_application db i
             /\ timeline db' i = timeline db i)
  /\ evaluatorAssignments db' = evaluatorAssignments db
  /\ evaluations db' = evaluations db
  /\ List.length (timelineStages db') = List.length (timelineStages db).
Proof.
  intros Hu Hr Hfind db'. subst db'.
  rewrite (submitApplication_found sess uid id now db a Hu Hr Hfind).
  cbn [snd evaluatorAssignments evaluations timelineStages].
  split; [|split; [reflexivity | split; [reflexivity|]]].
  - intros i Hi. split.
    + unfold lookup_application, Db.findFirst. cbn [applications].
      rewrite find_update by reflexivity.
      destruct (find (fun x => Application.id x =? i) (applications db))
        as [x|] eqn:Hx; [|reflexivity].
      simpl. apply find_some in Hx. destruct Hx as [_ Hx]. apply Nat.eqb_eq in Hx.
      assert (Hne : (Application.id x =? Application.id a) = false)
        by (apply Nat.eqb_neq; lia).
      rewrite Hne. reflexivity.
    + unfold timeline, Db.findMany. cbn [timelineStages].
      rewrite timeline_update by reflexivity.
      rewrite update_none.
      2:{ intros s Hs. apply filter_In in Hs. destruct Hs as [_ Hs].
          apply Nat.eqb_eq in Hs. rewrite Hs.
          apply Nat.eqb_neq in Hi. rewrite Hi. reflexivity. }
      rewrite timeline_update by reflexivity.
      apply update_none.
      intros s Hs. apply filter_In in Hs. destruct Hs as [_ Hs].
      apply Nat.eqb_eq in Hs. rewrite Hs.
      apply Nat.eqb_neq in Hi. rewrite Hi. reflexivity.
  - unfold Db.update. rewrite !length_map. reflexivity.
Qed.

Lemma submit_leaves_other_applications_witness :
  evaluatorAssignments
    (snd (submitApplication Scenario.institution Scenario.number 6000%Z
                            Scenario.evaluated))
  = evaluatorAssignments Scenario.evaluated.
Proof.
  refine (proj1 (proj2
    (submit_leaves_other_applications Scenario.institution 1 Scenario.number
       6000%Z Scenario.evaluated
       (Application.mk 100 Scenario.number 10 ApplicationType.new_course
          ApplicationStatus.under_evaluation "Delhi Institute of Technology"
          "123 Tech Street, New Delhi" "Delhi"
          (Some "B.Tech in Artificial Intelligence") (Some 60%Z) None
          (Some 2000%Z) 1000%Z 3000%Z)
       eq_refl eq_refl _))).
  vm_compute. reflexivity.
Defined.

(** X11: after a submission the current stages of the application are
    its stages titled Initial Scrutiny and the stages that were current
    under a title other than Application Submitted and Initial Scrutiny.
    On a timeline the engine did not create there may be two or more. *)
Theorem submit_current_stages
        (sess : Session) (uid : Id) (id : string) (now : Timestamp)
        (db : Store) (a : Application.t) :
  userId sess = Some uid -> userRole sess = Some "institution" ->
  Db.findFirst (fun x => String.eqb (Application.applicationNumber x) id)
               (applications db) = Some a ->
  count_current (timeline (snd (submitApplication sess id now db))
                          (Application.id a))
  = stages_titled "Initial Scrutiny" (timeline db (Application.id a))
    + stages_current_elsewhere (timeline db (Application.id a)).
Proof.
  intros Hu Hr Hfind.
  rewrite (submitApplication_found sess uid id now db a Hu Hr Hfind).
  unfold timeline, Db.findMany. cbn [snd timelineStages].
  rewrite !timeline_update by reflexivity.
  assert (Hown : forall s,
             In s (filter (fun s => TimelineStage.applicationId s =? Application.id a)
                          (timelineStages db)) ->
             (TimelineStage.applicationId s =? Application.id a) = true)
    by (intros s Hs; apply filter_In in Hs; tauto).
  induction (filter (fun s => TimelineStage.applicationId s =? Application.id a)
                    (timelineStages db)) as [|s l IH]; [reflexivity|].
  specialize (IH (fun x Hx => Hown x (or_intror Hx))).
  pose proof (Hown s (or_introl eq_refl)) as Hs.
  unfold count_current, stages_titled, stages_current_elsewhere, Db.update in *.
  cbn [map filter]. rewrite Hs. cbn [andb].
  destruct (String.eqb (TimelineStage.title s) "Application Submitted") eqn:E1;
    cbn [TimelineStage.set_completedAt TimelineStage.set_status
         TimelineStage.applicationId TimelineStage.title TimelineStage.status];
    rewrite ?Hs; cbn [andb].
  - apply String.eqb_eq in E1. rewrite E1. cbn -[map filter].
    cbn [negb andb]. rewrite andb_false_r. exact IH.
  - destruct (String.eqb (TimelineStage.title s) "Initial Scrutiny") eqn:E2;
      cbn [TimelineStage.set_status TimelineStage.status StageStatus.is_current
           negb andb List.length].
    + rewrite andb_false_r. cbn [List.length]. rewrite IH. reflexivity.
    + rewrite andb_true_r.
      destruct (StageStatus.is_current (TimelineStage.status s));
        cbn [andb List.length]; rewrite IH; lia.
Qed.

(** The seeded application under evaluation, submitted again: Initial
    Scrutiny becomes current beside Evaluation. *)
Lemma submit_current_stages_witness :
  count_current
    (timeline (snd (submitApplication Scenario.institution "AICTE/2025/001"
                      2000%Z Scenario2.seeded)) 200)
  = 2.
Proof.
  exact (submit_current_stages Scenario.institution 1 "AICTE/2025/001" 2000%Z
           Scenario2.seeded
           (Application.mk 200 "AICTE/2025/001" 10 ApplicationType.new_course
              ApplicationStatus.under_evaluation "Delhi Institute of Technology"
              "123 Tech Street, New Delhi" "Delhi"
              (Some "B.Tech in Artificial Intelligence") (Some 60%Z)
              (Some "New undergraduate program in AI and Machine Learning")
              (Some 500%Z) 900%Z 900%Z)
           eq_refl eq_refl eq_refl).
Defined.
